(** * WixRemoveRegistryKeyEx: the registry-key removal custom action

    A shallow embedding of [src/ext/ca/wixca/dll/RemoveRegistryKeyEx.cpp].
    The custom action is straight-line code around one [while] loop; every
    interesting step is a call into the installer engine (wcautil / MSI).
    The engine is a parameter of the model (record [Engine]); the calls the
    action makes are recorded, in order, in a trace, and the rows accepted
    by the staging-table append are collected in [staged]. *)

From Stdlib Require Import ZArith List String Ascii Bool Lia.
Import ListNotations.

Local Open Scope string_scope.
Local Open Scope list_scope.
Local Open Scope Z_scope.

(* ------------------------------------------------------------------ *)
(** ** Windows scalar types *)

(** [HRESULT] is a signed 32-bit status; no arithmetic is done on it, only
    comparisons, so it is a [Z]. *)
Definition HRESULT := Z.
Definition S_OK : HRESULT := 0.
Definition S_FALSE : HRESULT := 1.
(** HRESULT_FROM_WIN32(ERROR_NO_MORE_ITEMS) = 0x80070103, as a signed value. *)
Definition E_NOMOREITEMS : HRESULT := -2147024637.
(** 0x80004005 *)
Definition E_FAIL : HRESULT := -2147467259.

Definition FAILED (hr : HRESULT) : bool := hr <? 0.
Definition SUCCEEDED (hr : HRESULT) : bool := 0 <=? hr.

Definition UINT := Z.
Definition ERROR_SUCCESS : UINT := 0.
Definition ERROR_INSTALL_FAILURE : UINT := 1603.

(** A handle is an integer; [NULL] is 0. *)
Definition MSIHANDLE := Z.
Definition NULL_HANDLE : MSIHANDLE := 0.

(** [LPWSTR]: a pointer to a NUL-terminated string, or NULL ([None]). *)
Definition LPWSTR := option string.

(** The C test [scz && *scz]: the pointer is not NULL and the first
    character is not the terminator. *)
Definition nonempty_str (scz : LPWSTR) : bool :=
  match scz with
  | None => false
  | Some EmptyString => false
  | Some (String c _) => negb (Ascii.eqb c zero)
  end.

(** Result of [MsiEvaluateConditionW] (msi.h). *)
Inductive MSICONDITION : Type :=
| MSICONDITION_FALSE   (* 0: expression evaluates to False *)
| MSICONDITION_TRUE    (* 1: expression evaluates to True *)
| MSICONDITION_NONE    (* 2: no expression present *)
| MSICONDITION_ERROR.  (* 3: syntax error in expression *)

Definition MSICONDITION_eqb (a b : MSICONDITION) : bool :=
  match a, b with
  | MSICONDITION_FALSE, MSICONDITION_FALSE
  | MSICONDITION_TRUE, MSICONDITION_TRUE
  | MSICONDITION_NONE, MSICONDITION_NONE
  | MSICONDITION_ERROR, MSICONDITION_ERROR => true
  | _, _ => false
  end.

Inductive LOGLEVEL : Type :=
| LOGMSG_TRACEONLY
| LOGMSG_VERBOSE
| LOGMSG_STANDARD.

(* ------------------------------------------------------------------ *)
(** ** The query and its columns *)

Definition vcsRemoveRegistryKeyExQuery : string :=
  "SELECT `WixRemoveRegistryKeyEx`, `Component_`, `Root`, `Key`, `InstallMode`, `Condition` FROM `WixRemoveRegistryKeyEx`".

Inductive eRemoveRegistryKeyExQuery : Type :=
| rrxqId
| rrxqComponent
| rrxqRoot
| rrxqKey
| rrxqMode
| rrxqCondition.

(** The enumerators' values: [rrxqId = 1], then counting up. *)
Definition column_index (c : eRemoveRegistryKeyExQuery) : Z :=
  match c with
  | rrxqId => 1
  | rrxqComponent => 2
  | rrxqRoot => 3
  | rrxqKey => 4
  | rrxqMode => 5
  | rrxqCondition => 6
  end.

(** A fetched record, seen through the two typed accessors the action
    uses: each access gives a status and the value left in the
    out-parameter. *)
Record MsiRecord : Type := mkMsiRecord {
  rec_string : eRemoveRegistryKeyExQuery -> HRESULT * LPWSTR;
  rec_integer : eRemoveRegistryKeyExQuery -> HRESULT * Z
}.

(** An executed view: the records [WcaFetchRecord] hands out with [S_OK],
    then the status of the fetch that ends the loop, which is not [S_OK]. *)
Record MsiView : Type := mkMsiView {
  view_rows : list MsiRecord;
  view_end : HRESULT;
  view_end_not_ok : (view_end =? S_OK) = false
}.

(** An argument of a variadic call: a string pointer or an integer. *)
Inductive arg : Type :=
| AStr (s : LPWSTR)
| AInt (i : Z).

(** A row accepted by the staging-table append: table name and values. *)
Definition staged_row : Type := string * list arg.

(* ------------------------------------------------------------------ *)
(** ** The installer engine *)

(** What the engine answers to each call.  [engine_add_temp] sees the rows
    staged so far and the two handles passed by reference, and gives the
    status and the new handle values. *)
Record Engine : Type := mkEngine {
  engine_initialize : HRESULT;
  engine_table_exists : string -> HRESULT;
  engine_open_view : string -> HRESULT * MsiView;
  engine_evaluate : LPWSTR -> MSICONDITION;
  engine_add_temp :
    list staged_row -> MSIHANDLE -> MSIHANDLE -> string -> Z -> list arg ->
    HRESULT * (MSIHANDLE * MSIHANDLE)
}.

(** The calls the action makes, as they appear in the trace.
    [CallMsiCloseHandle] stands for the explicit [::MsiCloseHandle] calls
    of lines 97-105 on the two staging handles.  The closes that the
    [PMSIHANDLE] wrappers of [hView] and [hRec] make by themselves (at
    each [&hRec] and when the function returns) are outside the model,
    which has no handle for the view or for a record. *)
Inductive event : Type :=
| CallWcaInitialize (name : string)
| CallWcaTableExists (table : string)
| CallWcaOpenExecuteView (query : string)
| CallWcaFetchRecord
| CallWcaGetRecordString (col : eRemoveRegistryKeyExQuery)
| CallWcaGetRecordInteger (col : eRemoveRegistryKeyExQuery)
| CallMsiEvaluateConditionW (cond : LPWSTR)
| CallWcaLog (level : LOGLEVEL) (fmt : string) (args : list arg)
| CallExitTrace (hr : HRESULT) (fmt : string) (args : list arg)
| CallWcaAddTempRecord (table : string) (uiUniquifyColumn cColumns : Z)
                       (args : list arg)
| CallMsiCloseHandle (h : MSIHANDLE)
| CallWcaFinalize (er : UINT).

(** The state the action threads: the trace, the two handles shared by all
    [WcaAddTempRecord] calls, and the rows staged so far. *)
Record State : Type := mkState {
  trace : list event;
  hTable : MSIHANDLE;
  hColumns : MSIHANDLE;
  staged : list staged_row
}.

Definition initial_state : State :=
  mkState [] NULL_HANDLE NULL_HANDLE [].

(* ------------------------------------------------------------------ *)
(** ** Control: state passing with a jump to [LExit] *)

Inductive Step (A : Type) : Type :=
| Ret (a : A)
| LExit (hr : HRESULT).

Arguments Ret {A} a.
Arguments LExit {A} hr.

Definition M (A : Type) : Type := State -> Step A * State.

Definition ret {A} (a : A) : M A := fun s => (Ret a, s).

Definition bind {A B} (m : M A) (k : A -> M B) : M B :=
  fun s =>
    match m s with
    | (Ret a, s') => k a s'
    | (LExit hr, s') => (LExit hr, s')
    end.

Definition goto_LExit {A} (hr : HRESULT) : M A := fun s => (LExit hr, s).

Notation "x <- m ;; k" := (bind m (fun x => k))
  (at level 61, m at next level, right associativity).
Notation "' pat <- m ;; k" := (bind m (fun x => match x with pat => k end))
  (at level 61, pat pattern, m at next level, right associativity).
Notation "m ;; k" := (bind m (fun _ => k))
  (at level 61, right associativity).

(** [s] with [es] added at the end of the trace. *)
Definition log (s : State) (es : list event) : State :=
  mkState (trace s ++ es) (hTable s) (hColumns s) (staged s).

Definition emit (e : event) : M unit :=
  fun s => (Ret tt, log s [e]).

(** Modelled from the spec: the macro [ExitOnFailure(hr, fmt, ...)] is
    declared outside the sources.  The spec has every fatal error
    "short-circuit to a single cleanup point": on a failed status the
    message is traced and control jumps to [LExit]; otherwise nothing
    happens. *)
Definition ExitOnFailure (hr : HRESULT) (fmt : string) (args : list arg) : M unit :=
  if FAILED hr then emit (CallExitTrace hr fmt args) ;; goto_LExit hr
  else ret tt.

(* ------------------------------------------------------------------ *)
(** ** The engine calls *)

Definition WcaInitialize (E : Engine) (name : string) : M HRESULT :=
  emit (CallWcaInitialize name) ;; ret (engine_initialize E).

Definition WcaTableExists (E : Engine) (table : string) : M HRESULT :=
  emit (CallWcaTableExists table) ;; ret (engine_table_exists E table).

Definition WcaLog (level : LOGLEVEL) (fmt : string) (args : list arg) : M unit :=
  emit (CallWcaLog level fmt args).

Definition WcaOpenExecuteView (E : Engine) (query : string) : M (HRESULT * MsiView) :=
  emit (CallWcaOpenExecuteView query) ;; ret (engine_open_view E query).

Definition WcaFetchRecord : M unit := emit CallWcaFetchRecord.

Definition WcaGetRecordString (hRec : MsiRecord) (col : eRemoveRegistryKeyExQuery)
  : M (HRESULT * LPWSTR) :=
  emit (CallWcaGetRecordString col) ;; ret (rec_string hRec col).

Definition WcaGetRecordInteger (hRec : MsiRecord) (col : eRemoveRegistryKeyExQuery)
  : M (HRESULT * Z) :=
  emit (CallWcaGetRecordInteger col) ;; ret (rec_integer hRec col).

Definition MsiEvaluateConditionW (E : Engine) (cond : LPWSTR) : M MSICONDITION :=
  emit (CallMsiEvaluateConditionW cond) ;; ret (engine_evaluate E cond).

(** Modelled from the spec: the body of [WcaAddTempRecord] (wcautil) is not
    part of the sources.  The spec gives it as "(table name, column count,
    ordered values...) -> handle/status", each append being "a single
    atomic staging-table insert": on success the row is in the named
    table, on failure nothing is.  The status and the handles come from
    the engine. *)
Definition WcaAddTempRecord (E : Engine) (table : string)
    (uiUniquifyColumn cColumns : Z) (args : list arg) : M HRESULT :=
  emit (CallWcaAddTempRecord table uiUniquifyColumn cColumns args) ;;
  fun s =>
    let '(hr, (hT, hC)) :=
      engine_add_temp E (staged s) (hTable s) (hColumns s) table cColumns args in
    (Ret hr,
     mkState (trace s) hT hC
       (if SUCCEEDED hr then staged s ++ [(table, args)] else staged s)).

Definition MsiCloseHandle (h : MSIHANDLE) (s : State) : State :=
  log s [CallMsiCloseHandle h].

(** Modelled from the spec: the body of [WcaFinalize] (wcautil) is not
    part of the sources.  The spec has it "finalize with a success/failure
    status mapped to a process-level result code": the status it is given
    is the value the custom action returns. *)
Definition WcaFinalize (er : UINT) (s : State) : UINT * State :=
  (er, log s [CallWcaFinalize er]).

(* ------------------------------------------------------------------ *)
(** ** The custom action *)

(** Lines 48-60: [true] when the row goes on to translation, [false] for
    [continue]. *)
Definition check_condition (E : Engine) (sczId sczCondition : LPWSTR) : M bool :=
  if nonempty_str sczCondition then
    condition <- MsiEvaluateConditionW E sczCondition ;;
    if MSICONDITION_eqb MSICONDITION_TRUE condition then
      WcaLog LOGMSG_STANDARD "True condition for row %S: %S; processing."
        [AStr sczId; AStr sczCondition] ;;
      ret true
    else
      WcaLog LOGMSG_STANDARD "False or invalid condition for row %S: %S; skipping."
        [AStr sczId; AStr sczCondition] ;;
      ret false
  else ret true.

(** Lines 74-86: the [switch] on the mode. *)
Definition switch_iMode (E : Engine) (sczId sczComponent : LPWSTR) (iRoot : Z)
    (sczKey : LPWSTR) (iMode : Z) : M unit :=
  if iMode =? 1 then
    WcaLog LOGMSG_STANDARD "Adding RemoveRegistry row: %ls/%d/%ls/-/%ls"
      [AStr sczId; AInt iRoot; AStr sczKey; AStr sczComponent] ;;
    hr <- WcaAddTempRecord E "RemoveRegistry" 0 5
            [AStr sczId; AInt iRoot; AStr sczKey; AStr (Some "-"); AStr sczComponent] ;;
    ExitOnFailure hr
      "Failed to add RemoveRegistry row for remove-on-install WixRemoveRegistryKeyEx row: %ls:"
      [AStr sczId]
  else if iMode =? 2 then
    WcaLog LOGMSG_STANDARD "Adding Registry row: %ls/%d/%ls/-/null/%ls"
      [AStr sczId; AInt iRoot; AStr sczKey; AStr sczComponent] ;;
    hr <- WcaAddTempRecord E "Registry" 0 6
            [AStr sczId; AInt iRoot; AStr sczKey; AStr (Some "-"); AStr None;
             AStr sczComponent] ;;
    ExitOnFailure hr
      "Failed to add Registry row for remove-on-uninstall WixRemoveRegistryKeyEx row: %ls:"
      [AStr sczId]
  else ret tt.

(** Lines 62-86: read the other four columns and dispatch on the mode. *)
Definition translate (E : Engine) (hRec : MsiRecord) (sczId : LPWSTR) : M unit :=
  '(hr, sczComponent) <- WcaGetRecordString hRec rrxqComponent ;;
  ExitOnFailure hr "Failed to get WixRemoveRegistryKeyEx component." [] ;;
  '(hr, iRoot) <- WcaGetRecordInteger hRec rrxqRoot ;;
  ExitOnFailure hr "Failed to get WixRemoveRegistryKeyEx root." [] ;;
  '(hr, sczKey) <- WcaGetRecordString hRec rrxqKey ;;
  ExitOnFailure hr "Failed to get WixRemoveRegistryKeyEx key." [] ;;
  '(hr, iMode) <- WcaGetRecordInteger hRec rrxqMode ;;
  ExitOnFailure hr "Failed to get WixRemoveRegistryKeyEx mode." [] ;;
  switch_iMode E sczId sczComponent iRoot sczKey iMode.

(** Lines 42-86: the body of the [while] loop for one fetched record. *)
Definition loop_body (E : Engine) (hRec : MsiRecord) : M unit :=
  '(hr, sczId) <- WcaGetRecordString hRec rrxqId ;;
  ExitOnFailure hr "Failed to get WixRemoveRegistryKeyEx identity." [] ;;
  '(hr, sczCondition) <- WcaGetRecordString hRec rrxqCondition ;;
  ExitOnFailure hr "Failed to get WixRemoveRegistryKeyEx condition." [] ;;
  go <- check_condition E sczId sczCondition ;;
  if go then translate E hRec sczId else ret tt.

(** The iterations of the loop whose fetch gave [S_OK]. *)
Fixpoint while_fetch (E : Engine) (rows : list MsiRecord) : M unit :=
  match rows with
  | [] => ret tt
  | hRec :: rest =>
      WcaFetchRecord ;;
      loop_body E hRec ;;
      while_fetch E rest
  end.

(** Lines 40-94: the loop, left by the fetch whose status is not [S_OK],
    and the test of that status. *)
Definition fetch_loop (E : Engine) (hView : MsiView) : M HRESULT :=
  while_fetch E (view_rows hView) ;;
  WcaFetchRecord ;;
  let hr := view_end hView in
  let hr := if hr =? E_NOMOREITEMS then S_OK else hr in
  ExitOnFailure hr "Failure occured while processing WixRemoveRegistryKeyEx table." [] ;;
  ret hr.

(** Lines 27-94; the value returned is [hr] on reaching [LExit] by falling
    through or by [ExitFunction()]. *)
Definition run (E : Engine) : M HRESULT :=
  hr <- WcaInitialize E "WixRemoveRegistryKeyEx" ;;
  ExitOnFailure hr "Failed to initialize WixRemoveRegistryKeyEx" [] ;;
  exists_hr <- WcaTableExists E "WixRemoveRegistryKeyEx" ;;
  if negb (exists_hr =? S_OK) then
    WcaLog LOGMSG_STANDARD
      "WixRemoveRegistryKeyEx table doesn't exist, so there are no registry keys to remove."
      [] ;;
    ret hr
  else
    '(hr, hView) <- WcaOpenExecuteView E vcsRemoveRegistryKeyExQuery ;;
    ExitOnFailure hr "Failed to open view on WixRemoveRegistryKeyEx table" [] ;;
    fetch_loop E hView.

Definition status_of (r : Step HRESULT) : HRESULT :=
  match r with
  | Ret hr => hr
  | LExit hr => hr
  end.

(** Lines 96-113: the code at [LExit].  No jump is possible here, so
    the state is passed on directly.  ([ReleaseStr] frees the four string
    buffers and has no effect the model observes.) *)
Definition at_LExit (hr : HRESULT) (s : State) : UINT * State :=
  let s := if negb (hColumns s =? NULL_HANDLE) then MsiCloseHandle (hColumns s) s
           else s in
  let s := if negb (hTable s =? NULL_HANDLE) then MsiCloseHandle (hTable s) s
           else s in
  let er := if SUCCEEDED hr then ERROR_SUCCESS else ERROR_INSTALL_FAILURE in
  WcaFinalize er s.

Definition WixRemoveRegistryKeyEx (E : Engine) : UINT * State :=
  let '(r, s) := run E initial_state in
  at_LExit (status_of r) s.

(* ------------------------------------------------------------------ *)
(** ** Concrete tables and engines *)

Module Sample.

(** A record whose six columns all read with [S_OK]. *)
Definition row (id comp : string) (root : Z) (key : string) (mode : Z)
    (cond : string) : MsiRecord :=
  mkMsiRecord
    (fun c =>
       match c with
       | rrxqId => (S_OK, Some id)
       | rrxqComponent => (S_OK, Some comp)
       | rrxqKey => (S_OK, Some key)
       | rrxqCondition => (S_OK, Some cond)
       | _ => (E_FAIL, None)
       end)
    (fun c =>
       match c with
       | rrxqRoot => (S_OK, root)
       | rrxqMode => (S_OK, mode)
       | _ => (E_FAIL, 0)
       end).

(** [r] with the read of string column [col] failing with [hr]. *)
Definition fail_string (col : eRemoveRegistryKeyExQuery) (hr : HRESULT)
    (r : MsiRecord) : MsiRecord :=
  mkMsiRecord
    (fun c =>
       match c, col with
       | rrxqId, rrxqId | rrxqComponent, rrxqComponent
       | rrxqKey, rrxqKey | rrxqCondition, rrxqCondition => (hr, None)
       | _, _ => rec_string r c
       end)
    (rec_integer r).

Definition view (rows : list MsiRecord) : MsiView :=
  mkMsiView rows E_NOMOREITEMS eq_refl.

(** The condition "VersionNT >= 600" holds, "Never" does not, anything
    else is a syntax error. *)
Definition evaluate (c : LPWSTR) : MSICONDITION :=
  match c with
  | None => MSICONDITION_NONE
  | Some s =>
      if String.eqb s "VersionNT >= 600" then MSICONDITION_TRUE
      else if String.eqb s "Never" then MSICONDITION_FALSE
      else MSICONDITION_ERROR
  end.

(** An engine that opens the view on first use (handles 7 and 8) and takes
    every row but the one whose first value is [reject]. *)
Definition add_temp (reject : string) (rows : list staged_row)
    (hT hC : MSIHANDLE) (table : string) (cColumns : Z) (args : list arg)
  : HRESULT * (MSIHANDLE * MSIHANDLE) :=
  match args with
  | AStr (Some id) :: _ =>
      if String.eqb id reject then (E_FAIL, (7, 8)) else (S_OK, (7, 8))
  | _ => (S_OK, (7, 8))
  end.

Definition engine (rows : list MsiRecord) : Engine :=
  mkEngine S_OK (fun _ => S_OK) (fun _ => (S_OK, view rows)) evaluate
    (add_temp "").

Definition engine_rejecting (reject : string) (rows : list MsiRecord) : Engine :=
  mkEngine S_OK (fun _ => S_OK) (fun _ => (S_OK, view rows)) evaluate
    (add_temp reject).

Definition engine_no_table : Engine :=
  mkEngine S_OK (fun _ => S_FALSE) (fun _ => (E_FAIL, view [])) evaluate
    (add_temp "").

Definition R1 : MsiRecord := row "R1" "C1" 2 "SOFTWARE\X" 1 "".
Definition R2 : MsiRecord := row "R2" "C2" 0 "SOFTWARE\Y" 2 "VersionNT >= 600".
Definition R2_false : MsiRecord := row "R2" "C2" 0 "SOFTWARE\Y" 2 "Never".
Definition R3_no_key : MsiRecord := fail_string rrxqKey E_FAIL (row "R3" "C3" 2 "" 1 "").

(** A row whose condition is false and whose [Key] column cannot be read. *)
Definition R0_skipped_no_key : MsiRecord :=
  fail_string rrxqKey E_FAIL (row "R0" "C0" 2 "SOFTWARE\Z" 1 "Never").

(** A row whose [Key] and [Component_] columns read as empty strings. *)
Definition R9_empty : MsiRecord := row "R9" "" 2 "" 1 "".

(** A row whose mode is neither 1 nor 2. *)
Definition R5_mode3 : MsiRecord := row "R5" "C5" 1 "SOFTWARE\W" 3 "".

End Sample.


(* ------------------------------------------------------------------ *)
(** ** Vocabulary for the statements *)

(** The events of [s'] that come after those of [s]. *)
Definition events_since (s s' : State) : list event :=
  skipn (List.length (trace s)) (trace s').

(** Every event a computation adds to the trace satisfies [P]. *)
Definition emits (P : event -> Prop) {A} (m : M A) : Prop :=
  forall s, exists es, trace (snd (m s)) = trace s ++ es /\ Forall P es.

Definition is_evaluate (e : event) : bool :=
  match e with
  | CallMsiEvaluateConditionW _ => true
  | _ => false
  end.

Definition is_add_temp (e : event) : bool :=
  match e with
  | CallWcaAddTempRecord _ _ _ _ => true
  | _ => false
  end.

Definition is_log (e : event) : bool :=
  match e with
  | CallWcaLog _ _ _ => true
  | _ => false
  end.

Definition is_column_read (e : event) : bool :=
  match e with
  | CallWcaGetRecordString _ | CallWcaGetRecordInteger _ => true
  | _ => false
  end.

(** The spec's RegistryKeyRemovalRule: the six values of a record. *)
Record Rule : Type := mkRule {
  rule_id : LPWSTR;
  rule_component : LPWSTR;
  rule_root : Z;
  rule_key : LPWSTR;
  rule_mode : Z;
  rule_condition : LPWSTR
}.

(** The rule a record holds when all six of its columns read without a
    failed status. *)
Definition load (r : MsiRecord) : option Rule :=
  let '(hrId, sczId) := rec_string r rrxqId in
  let '(hrComp, sczComponent) := rec_string r rrxqComponent in
  let '(hrRoot, iRoot) := rec_integer r rrxqRoot in
  let '(hrKey, sczKey) := rec_string r rrxqKey in
  let '(hrMode, iMode) := rec_integer r rrxqMode in
  let '(hrCond, sczCondition) := rec_string r rrxqCondition in
  if FAILED hrId || FAILED hrComp || FAILED hrRoot || FAILED hrKey
     || FAILED hrMode || FAILED hrCond
  then None
  else Some (mkRule sczId sczComponent iRoot sczKey iMode sczCondition).

(** The condition lets the row through: it is empty, or evaluates to
    True. *)
Definition condition_applies (E : Engine) (sczCondition : LPWSTR) : bool :=
  negb (nonempty_str sczCondition)
  || MSICONDITION_eqb MSICONDITION_TRUE (engine_evaluate E sczCondition).

(** What checking the condition adds to the trace. *)
Definition condition_events (E : Engine) (sczId sczCondition : LPWSTR) : list event :=
  if nonempty_str sczCondition then
    [CallMsiEvaluateConditionW sczCondition;
     CallWcaLog LOGMSG_STANDARD
       (if MSICONDITION_eqb MSICONDITION_TRUE (engine_evaluate E sczCondition)
        then "True condition for row %S: %S; processing."
        else "False or invalid condition for row %S: %S; skipping.")
       [AStr sczId; AStr sczCondition]]
  else [].

(** The row is skipped on its condition: identity and condition were
    read, the condition is not empty and does not evaluate to True. *)
Definition skipped (E : Engine) (r : MsiRecord) : bool :=
  negb (FAILED (fst (rec_string r rrxqId)))
  && negb (FAILED (fst (rec_string r rrxqCondition)))
  && negb (condition_applies E (snd (rec_string r rrxqCondition))).

(** One of the five required columns fails to read. *)
Definition missing_required (r : MsiRecord) : bool :=
  FAILED (fst (rec_string r rrxqId))
  || FAILED (fst (rec_string r rrxqComponent))
  || FAILED (fst (rec_integer r rrxqRoot))
  || FAILED (fst (rec_string r rrxqKey))
  || FAILED (fst (rec_integer r rrxqMode)).

(** The events of reading and checking identity and condition. *)
Definition head_events (E : Engine) (sczId sczCondition : LPWSTR) : list event :=
  [CallWcaGetRecordString rrxqId; CallWcaGetRecordString rrxqCondition]
  ++ condition_events E sczId sczCondition.

(** The events of a loaded rule up to the [switch]. *)
Definition read_events (E : Engine) (x : Rule) : list event :=
  head_events E (rule_id x) (rule_condition x)
  ++ [CallWcaGetRecordString rrxqComponent; CallWcaGetRecordInteger rrxqRoot;
      CallWcaGetRecordString rrxqKey; CallWcaGetRecordInteger rrxqMode].

(** The two output shapes. *)
Definition immediate_removal_row (x : Rule) : staged_row :=
  ("RemoveRegistry",
   [AStr (rule_id x); AInt (rule_root x); AStr (rule_key x); AStr (Some "-");
    AStr (rule_component x)]).

Definition scheduled_removal_row (x : Rule) : staged_row :=
  ("Registry",
   [AStr (rule_id x); AInt (rule_root x); AStr (rule_key x); AStr (Some "-");
    AStr None; AStr (rule_component x)]).

(** The row the translator submits for a rule, if any. *)
Definition output_row (x : Rule) : option staged_row :=
  if rule_mode x =? 1 then Some (immediate_removal_row x)
  else if rule_mode x =? 2 then Some (scheduled_removal_row x)
  else None.

(** The engine's answer to submitting [row] in state [s]. *)
Definition append_status (E : Engine) (s : State) (row : staged_row) : HRESULT :=
  fst (engine_add_temp E (staged s) (hTable s) (hColumns s) (fst row)
         (Z.of_nat (List.length (snd row))) (snd row)).

(** The view the action scans, when initialisation succeeds, the table
    exists and the view opens. *)
Definition scanned_view (E : Engine) : option MsiView :=
  if FAILED (engine_initialize E) then None
  else if negb (engine_table_exists E "WixRemoveRegistryKeyEx" =? S_OK) then None
  else
    let '(hr, hView) := engine_open_view E vcsRemoveRegistryKeyExQuery in
    if FAILED hr then None else Some hView.

(** The state in which the loop starts. *)
Definition scan_start : State :=
  log initial_state
    [CallWcaInitialize "WixRemoveRegistryKeyEx";
     CallWcaTableExists "WixRemoveRegistryKeyEx";
     CallWcaOpenExecuteView vcsRemoveRegistryKeyExQuery].

(** The loop gets through the rows [pre] without leaving, and is then in
    state [s]. *)
Definition reaches (E : Engine) (pre : list MsiRecord) (s : State) : Prop :=
  while_fetch E pre scan_start = (Ret tt, s).

(** The rows one record contributes to a pass that completes: the output
    row of its rule when the condition lets it through, nothing for a
    skipped row or a mode without a case. *)
Definition expected_rows (E : Engine) (r : MsiRecord) : list staged_row :=
  if skipped E r then []
  else
    match load r with
    | Some x =>
        match output_row x with
        | Some row => [row]
        | None => []
        end
    | None => []
    end.

Definition is_close (e : event) : bool :=
  match e with
  | CallMsiCloseHandle _ => true
  | _ => false
  end.

(** The reading of the spec under which every fetched row that lacks one
    of the five required columns ends the pass in failure, with nothing
    staged for it or after it. *)
Definition every_missing_column_aborts (E : Engine) : Prop :=
  forall (v : MsiView) (pre post : list MsiRecord) (r : MsiRecord) (s1 : State),
    scanned_view E = Some v ->
    view_rows v = pre ++ r :: post ->
    reaches E pre s1 ->
    missing_required r = true ->
    fst (WixRemoveRegistryKeyEx E) = ERROR_INSTALL_FAILURE
    /\ staged (snd (WixRemoveRegistryKeyEx E)) = staged s1.

(** The reading of the spec under which a row whose key or component is
    empty is never processed: reaching such a row ends the pass in
    failure. *)
Definition empty_key_or_component_aborts (E : Engine) : Prop :=
  forall (v : MsiView) (pre post : list MsiRecord) (r : MsiRecord) (s1 : State),
    scanned_view E = Some v ->
    view_rows v = pre ++ r :: post ->
    reaches E pre s1 ->
    skipped E r = false ->
    nonempty_str (snd (rec_string r rrxqKey)) = false
    \/ nonempty_str (snd (rec_string r rrxqComponent)) = false ->
    fst (WixRemoveRegistryKeyEx E) = ERROR_INSTALL_FAILURE.

(** The events of submitting a row, and the outcome of the [switch] case
    that submits [row] for rule [x] in state [s]. *)
Definition adding_log (x : Rule) : event :=
  CallWcaLog LOGMSG_STANDARD
    (if rule_mode x =? 1 then "Adding RemoveRegistry row: %ls/%d/%ls/-/%ls"
     else "Adding Registry row: %ls/%d/%ls/-/null/%ls")
    [AStr (rule_id x); AInt (rule_root x); AStr (rule_key x);
     AStr (rule_component x)].

Definition add_call (row : staged_row) : event :=
  CallWcaAddTempRecord (fst row) 0 (Z.of_nat (List.length (snd row))) (snd row).

Definition add_failure_message (x : Rule) : string :=
  if rule_mode x =? 1
  then "Failed to add RemoveRegistry row for remove-on-install WixRemoveRegistryKeyEx row: %ls:"
  else "Failed to add Registry row for remove-on-uninstall WixRemoveRegistryKeyEx row: %ls:".

Definition after_append (E : Engine) (x : Rule) (row : staged_row) (s : State)
  : Step unit * State :=
  let '(hr, (hT, hC)) :=
    engine_add_temp E (staged s) (hTable s) (hColumns s) (fst row)
      (Z.of_nat (List.length (snd row))) (snd row) in
  if FAILED hr then
    (LExit hr,
     mkState
       (trace s ++ [adding_log x; add_call row;
                    CallExitTrace hr (add_failure_message x) [AStr (rule_id x)]])
       hT hC (staged s))
  else
    (Ret tt,
     mkState (trace s ++ [adding_log x; add_call row]) hT hC (staged s ++ [row])).

(* ------------------------------------------------------------------ *)
(** ** Vocabulary for the whole pass *)

Definition is_exit_trace (e : event) : bool :=
  match e with
  | CallExitTrace _ _ _ => true
  | _ => false
  end.

Definition is_fetch (e : event) : bool :=
  match e with
  | CallWcaFetchRecord => true
  | _ => false
  end.

(** A computation that jumps to [LExit] does so with a failed status and
    exactly one failure trace; one that completes traces no failure and
    returns a value satisfying [Q]. *)
Definition traced_exit {A} (Q : A -> Prop) (m : M A) : Prop :=
  forall s,
    exists es,
      trace (snd (m s)) = trace s ++ es
      /\ match fst (m s) with
         | Ret a => Q a /\ filter is_exit_trace es = []
         | LExit hr =>
             FAILED hr = true
             /\ exists fmt args, filter is_exit_trace es = [CallExitTrace hr fmt args]
         end.

(** A computation closes no handle, and when it makes no append call it
    leaves the two handles and the staged rows as they were. *)
Definition frames {A} (m : M A) : Prop :=
  forall s,
    exists es,
      trace (snd (m s)) = trace s ++ es
      /\ Forall (fun e => is_close e = false) es
      /\ (filter is_add_temp es = [] ->
          hTable (snd (m s)) = hTable s
          /\ hColumns (snd (m s)) = hColumns s
          /\ staged (snd (m s)) = staged s).

Module Edge.

Definition engine_init_fails : Engine :=
  mkEngine E_FAIL (fun _ => S_OK) (fun _ => (S_OK, Sample.view [Sample.R1]))
    Sample.evaluate (Sample.add_temp "").

Definition engine_open_fails : Engine :=
  mkEngine S_OK (fun _ => S_OK) (fun _ => (E_FAIL, Sample.view [Sample.R1]))
    Sample.evaluate (Sample.add_temp "").

(** A view whose fetch ends with an error other than the end of data. *)
Definition broken_view (rows : list MsiRecord) : MsiView :=
  mkMsiView rows E_FAIL eq_refl.

Definition engine_fetch_fails (rows : list MsiRecord) : Engine :=
  mkEngine S_OK (fun _ => S_OK) (fun _ => (S_OK, broken_view rows))
    Sample.evaluate (Sample.add_temp "").

(** A row whose [Condition] column cannot be read. *)
Definition R4_no_condition : MsiRecord :=
  Sample.fail_string rrxqCondition E_FAIL (Sample.row "R4" "C4" 2 "SOFTWARE\V" 1 "").

End Edge.

(* ------------------------------------------------------------------ *)
(** ** Equations of the control operators *)

Lemma SUCCEEDED_FAILED (hr : HRESULT) : SUCCEEDED hr = negb (FAILED hr).
Proof. unfold SUCCEEDED, FAILED. destruct (Z.ltb_spec hr 0), (Z.leb_spec 0 hr); simpl; lia. Qed.

Lemma log_nil (s : State) : log s [] = s.
Proof. destruct s; unfold log; simpl. now rewrite app_nil_r. Qed.

Lemma log_log (s : State) (a b : list event) : log (log s a) b = log s (a ++ b).
Proof. unfold log; simpl. now rewrite app_assoc. Qed.

Lemma skipn_length_app {A} (l es : list A) : skipn (List.length l) (l ++ es) = es.
Proof. induction l as [|a l IH]; simpl; auto. Qed.

Lemma events_since_app (s s' : State) (es : list event) :
  trace s' = trace s ++ es -> events_since s s' = es.
Proof. intros H. unfold events_since. rewrite H. apply skipn_length_app. Qed.

Lemma events_since_log (s : State) (es : list event) : events_since s (log s es) = es.
Proof. now apply events_since_app. Qed.

Lemma emit_eq (e : event) (s : State) : emit e s = (Ret tt, log s [e]).
Proof. reflexivity. Qed.

Lemma ExitOnFailure_ok (hr : HRESULT) (fmt : string) (args : list arg) (s : State) :
  FAILED hr = false -> ExitOnFailure hr fmt args s = (Ret tt, s).
Proof. intros H. unfold ExitOnFailure. now rewrite H. Qed.

Lemma ExitOnFailure_fail (hr : HRESULT) (fmt : string) (args : list arg) (s : State) :
  FAILED hr = true ->
  ExitOnFailure hr fmt args s = (LExit hr, log s [CallExitTrace hr fmt args]).
Proof. intros H. unfold ExitOnFailure. now rewrite H. Qed.

Lemma WcaGetRecordString_eq (r : MsiRecord) (col : eRemoveRegistryKeyExQuery) (s : State) :
  WcaGetRecordString r col s = (Ret (rec_string r col), log s [CallWcaGetRecordString col]).
Proof. reflexivity. Qed.

Lemma WcaGetRecordInteger_eq (r : MsiRecord) (col : eRemoveRegistryKeyExQuery) (s : State) :
  WcaGetRecordInteger r col s = (Ret (rec_integer r col), log s [CallWcaGetRecordInteger col]).
Proof. reflexivity. Qed.

Lemma check_condition_eq (E : Engine) (sczId sczCondition : LPWSTR) (s : State) :
  check_condition E sczId sczCondition s
  = (Ret (condition_applies E sczCondition),
     log s (condition_events E sczId sczCondition)).
Proof.
  unfold check_condition, condition_applies, condition_events.
  destruct (nonempty_str sczCondition); simpl.
  - unfold bind, MsiEvaluateConditionW, WcaLog, emit, ret, log; simpl.
    destruct (engine_evaluate E sczCondition); simpl;
      rewrite <- app_assoc; reflexivity.
  - unfold ret. now rewrite log_nil.
Qed.

(* ------------------------------------------------------------------ *)
(** ** Equations of the loop body *)

Ltac step := unfold bind at 1.
Ltac passes := step; rewrite ExitOnFailure_ok by assumption.
Ltac exits := step; rewrite ExitOnFailure_fail by assumption.

Lemma loop_body_head (E : Engine) (r : MsiRecord) (s : State)
    (hrId hrCond : HRESULT) (sczId sczCondition : LPWSTR) :
  rec_string r rrxqId = (hrId, sczId) -> FAILED hrId = false ->
  rec_string r rrxqCondition = (hrCond, sczCondition) -> FAILED hrCond = false ->
  loop_body E r s =
    if condition_applies E sczCondition
    then translate E r sczId (log s (head_events E sczId sczCondition))
    else (Ret tt, log s (head_events E sczId sczCondition)).
Proof.
  intros Hid Fid Hc Fc.
  unfold loop_body.
  step. rewrite WcaGetRecordString_eq, Hid.
  passes.
  step. rewrite WcaGetRecordString_eq, Hc.
  passes.
  step; rewrite check_condition_eq.
  rewrite !log_log. simpl.
  now destruct (condition_applies E sczCondition).
Qed.

Lemma loop_body_id_fail (E : Engine) (r : MsiRecord) (s : State) :
  FAILED (fst (rec_string r rrxqId)) = true ->
  loop_body E r s =
    (LExit (fst (rec_string r rrxqId)),
     log s [CallWcaGetRecordString rrxqId;
            CallExitTrace (fst (rec_string r rrxqId))
              "Failed to get WixRemoveRegistryKeyEx identity." []]).
Proof.
  intros F. unfold loop_body.
  step. rewrite WcaGetRecordString_eq.
  destruct (rec_string r rrxqId) as [hr v]; simpl in *.
  exits.
  now rewrite log_log.
Qed.

Lemma loop_body_cond_fail (E : Engine) (r : MsiRecord) (s : State) :
  FAILED (fst (rec_string r rrxqId)) = false ->
  FAILED (fst (rec_string r rrxqCondition)) = true ->
  loop_body E r s =
    (LExit (fst (rec_string r rrxqCondition)),
     log s [CallWcaGetRecordString rrxqId; CallWcaGetRecordString rrxqCondition;
            CallExitTrace (fst (rec_string r rrxqCondition))
              "Failed to get WixRemoveRegistryKeyEx condition." []]).
Proof.
  intros Fid F. unfold loop_body.
  step. rewrite WcaGetRecordString_eq.
  destruct (rec_string r rrxqId) as [hr v]; simpl in *.
  passes.
  step. rewrite WcaGetRecordString_eq.
  destruct (rec_string r rrxqCondition) as [hr' v']; simpl in *.
  exits.
  now rewrite !log_log.
Qed.

(** A failed read among the four columns of [translate] leaves by
    [LExit] before the [switch]. *)
Lemma translate_missing (E : Engine) (r : MsiRecord) (sczId : LPWSTR) (s : State) :
  FAILED (fst (rec_string r rrxqComponent))
  || FAILED (fst (rec_integer r rrxqRoot))
  || FAILED (fst (rec_string r rrxqKey))
  || FAILED (fst (rec_integer r rrxqMode)) = true ->
  exists hr es,
    translate E r sczId s = (LExit hr, log s es)
    /\ FAILED hr = true
    /\ Forall (fun e => is_add_temp e = false) es.
Proof.
  intros F. unfold translate.
  step. rewrite WcaGetRecordString_eq.
  destruct (rec_string r rrxqComponent) as [h1 v1]; simpl in F.
  destruct (FAILED h1) eqn:F1.
  { exits. rewrite log_log.
    eexists _, _. split; [reflexivity|]. split; [assumption|].
    repeat constructor. }
  passes.
  step. rewrite WcaGetRecordInteger_eq.
  destruct (rec_integer r rrxqRoot) as [h2 v2]; simpl in F.
  destruct (FAILED h2) eqn:F2.
  { exits. rewrite !log_log.
    eexists _, _. split; [reflexivity|]. split; [assumption|].
    repeat constructor. }
  passes.
  step. rewrite WcaGetRecordString_eq.
  destruct (rec_string r rrxqKey) as [h3 v3]; simpl in F.
  destruct (FAILED h3) eqn:F3.
  { exits. rewrite !log_log.
    eexists _, _. split; [reflexivity|]. split; [assumption|].
    repeat constructor. }
  passes.
  step. rewrite WcaGetRecordInteger_eq.
  destruct (rec_integer r rrxqMode) as [h4 v4]; simpl in F.
  destruct (FAILED h4) eqn:F4; [|discriminate].
  exits. rewrite !log_log.
  eexists _, _. split; [reflexivity|]. split; [assumption|].
  repeat constructor.
Qed.

(** What [load r = Some x] says, column by column. *)
Lemma load_Some (r : MsiRecord) (x : Rule) :
  load r = Some x ->
  (rec_string r rrxqId = (fst (rec_string r rrxqId), rule_id x)
   /\ FAILED (fst (rec_string r rrxqId)) = false)
  /\ (rec_string r rrxqComponent = (fst (rec_string r rrxqComponent), rule_component x)
      /\ FAILED (fst (rec_string r rrxqComponent)) = false)
  /\ (rec_integer r rrxqRoot = (fst (rec_integer r rrxqRoot), rule_root x)
      /\ FAILED (fst (rec_integer r rrxqRoot)) = false)
  /\ (rec_string r rrxqKey = (fst (rec_string r rrxqKey), rule_key x)
      /\ FAILED (fst (rec_string r rrxqKey)) = false)
  /\ (rec_integer r rrxqMode = (fst (rec_integer r rrxqMode), rule_mode x)
      /\ FAILED (fst (rec_integer r rrxqMode)) = false)
  /\ (rec_string r rrxqCondition = (fst (rec_string r rrxqCondition), rule_condition x)
      /\ FAILED (fst (rec_string r rrxqCondition)) = false).
Proof.
  unfold load.
  destruct (rec_string r rrxqId) as [h1 v1], (rec_string r rrxqComponent) as [h2 v2],
    (rec_integer r rrxqRoot) as [h3 v3], (rec_string r rrxqKey) as [h4 v4],
    (rec_integer r rrxqMode) as [h5 v5], (rec_string r rrxqCondition) as [h6 v6].
  cbn [fst].
  destruct (FAILED h1), (FAILED h2), (FAILED h3), (FAILED h4), (FAILED h5), (FAILED h6);
    simpl; intros H; try discriminate.
  injection H as <-. simpl. repeat split.
Qed.

Lemma translate_loaded (E : Engine) (r : MsiRecord) (x : Rule) (s : State) :
  load r = Some x ->
  translate E r (rule_id x) s =
    switch_iMode E (rule_id x) (rule_component x) (rule_root x) (rule_key x)
      (rule_mode x)
      (log s [CallWcaGetRecordString rrxqComponent; CallWcaGetRecordInteger rrxqRoot;
              CallWcaGetRecordString rrxqKey; CallWcaGetRecordInteger rrxqMode]).
Proof.
  intros L. destruct (load_Some _ _ L) as (_ & [H2 F2] & [H3 F3] & [H4 F4] & [H5 F5] & _).
  unfold translate.
  step. rewrite WcaGetRecordString_eq, H2. passes.
  step. rewrite WcaGetRecordInteger_eq, H3. passes.
  step. rewrite WcaGetRecordString_eq, H4. passes.
  step. rewrite WcaGetRecordInteger_eq, H5. passes.
  now rewrite !log_log.
Qed.

Lemma loop_body_loaded (E : Engine) (r : MsiRecord) (x : Rule) (s : State) :
  load r = Some x ->
  loop_body E r s =
    if condition_applies E (rule_condition x)
    then switch_iMode E (rule_id x) (rule_component x) (rule_root x) (rule_key x)
           (rule_mode x) (log s (read_events E x))
    else (Ret tt, log s (head_events E (rule_id x) (rule_condition x))).
Proof.
  intros L. destruct (load_Some _ _ L) as ([H1 F1] & _ & _ & _ & _ & [H6 F6]).
  rewrite (loop_body_head E r s _ _ _ _ H1 F1 H6 F6).
  destruct (condition_applies E (rule_condition x)); [|reflexivity].
  rewrite (translate_loaded E r x _ L), log_log. reflexivity.
Qed.

Lemma switch_iMode_row (E : Engine) (x : Rule) (row : staged_row) (s : State) :
  output_row x = Some row ->
  switch_iMode E (rule_id x) (rule_component x) (rule_root x) (rule_key x)
    (rule_mode x) s
  = after_append E x row s.
Proof.
  unfold output_row, switch_iMode, after_append, adding_log, add_failure_message.
  destruct (rule_mode x =? 1) eqn:M1; [|destruct (rule_mode x =? 2) eqn:M2];
    intros H; try discriminate; injection H as <-;
    unfold immediate_removal_row, scheduled_removal_row, add_call; simpl;
    unfold bind, WcaLog, WcaAddTempRecord, bind, emit, ret, log; simpl;
    match goal with
    | |- context [engine_add_temp ?a ?b ?c ?d ?e ?f ?g] =>
        destruct (engine_add_temp a b c d e f g) as [hr [hT hC]]
    end;
    unfold ExitOnFailure; rewrite SUCCEEDED_FAILED;
    destruct (FAILED hr); simpl; unfold bind, emit, goto_LExit, ret, log; simpl;
    rewrite <- !app_assoc; reflexivity.
Qed.

Lemma switch_iMode_other (E : Engine) (x : Rule) (s : State) :
  output_row x = None ->
  switch_iMode E (rule_id x) (rule_component x) (rule_root x) (rule_key x)
    (rule_mode x) s
  = (Ret tt, s).
Proof.
  unfold output_row, switch_iMode.
  destruct (rule_mode x =? 1); [discriminate|].
  destruct (rule_mode x =? 2); [discriminate|]. reflexivity.
Qed.

(* ------------------------------------------------------------------ *)
(** ** Equations of the loop and of the whole action *)

Lemma while_fetch_cons_Ret (E : Engine) (r : MsiRecord) (rest : list MsiRecord)
    (s s' : State) :
  loop_body E r (log s [CallWcaFetchRecord]) = (Ret tt, s') ->
  while_fetch E (r :: rest) s = while_fetch E rest s'.
Proof.
  intros H. simpl. step. unfold WcaFetchRecord. rewrite emit_eq.
  step. now rewrite H.
Qed.

Lemma while_fetch_cons_LExit (E : Engine) (r : MsiRecord) (rest : list MsiRecord)
    (s s' : State) (hr : HRESULT) :
  loop_body E r (log s [CallWcaFetchRecord]) = (LExit hr, s') ->
  while_fetch E (r :: rest) s = (LExit hr, s').
Proof.
  intros H. simpl. step. unfold WcaFetchRecord. rewrite emit_eq.
  step. now rewrite H.
Qed.

Lemma while_fetch_app (E : Engine) (pre post : list MsiRecord) (s s1 : State) :
  while_fetch E pre s = (Ret tt, s1) ->
  while_fetch E (pre ++ post) s = while_fetch E post s1.
Proof.
  revert s. induction pre as [|r pre IH]; intros s H.
  - simpl in H. unfold ret in H. now injection H as <-.
  - rewrite <- app_comm_cons.
    destruct (loop_body E r (log s [CallWcaFetchRecord])) as [[[]|hr] s'] eqn:B.
    + rewrite (while_fetch_cons_Ret _ _ _ _ _ B) in H.
      rewrite (while_fetch_cons_Ret _ _ _ _ _ B). now apply IH.
    + rewrite (while_fetch_cons_LExit _ _ _ _ _ _ B) in H. discriminate.
Qed.

Lemma fetch_loop_LExit (E : Engine) (v : MsiView) (s s' : State) (hr : HRESULT) :
  while_fetch E (view_rows v) s = (LExit hr, s') ->
  fetch_loop E v s = (LExit hr, s').
Proof. intros H. unfold fetch_loop. step. now rewrite H. Qed.

Lemma WixRemoveRegistryKeyEx_scanned (E : Engine) (v : MsiView) :
  scanned_view E = Some v ->
  WixRemoveRegistryKeyEx E =
    at_LExit (status_of (fst (fetch_loop E v scan_start)))
             (snd (fetch_loop E v scan_start)).
Proof.
  unfold scanned_view, WixRemoveRegistryKeyEx, run.
  destruct (FAILED (engine_initialize E)) eqn:F0; [discriminate|].
  destruct (engine_table_exists E "WixRemoveRegistryKeyEx" =? S_OK) eqn:T;
    [|discriminate]. simpl.
  destruct (engine_open_view E vcsRemoveRegistryKeyExQuery) as [hr hView] eqn:O.
  destruct (FAILED hr) eqn:F1; [discriminate|].
  intros H; injection H as <-.
  unfold bind at 1. unfold WcaInitialize, bind at 1. rewrite emit_eq. unfold ret at 1.
  passes.
  unfold bind at 1. unfold WcaTableExists, bind at 1. rewrite emit_eq. unfold ret at 1.
  rewrite T. simpl.
  unfold bind at 1. unfold WcaOpenExecuteView, bind at 1. rewrite emit_eq. unfold ret at 1.
  rewrite O. passes. rewrite !log_log. simpl.
  fold scan_start.
  now destruct (fetch_loop E hView scan_start).
Qed.

Lemma at_LExit_failed (hr : HRESULT) (s : State) :
  FAILED hr = true -> fst (at_LExit hr s) = ERROR_INSTALL_FAILURE.
Proof. intros F. unfold at_LExit, WcaFinalize. rewrite SUCCEEDED_FAILED, F. reflexivity. Qed.

Lemma at_LExit_succeeded (hr : HRESULT) (s : State) :
  FAILED hr = false -> fst (at_LExit hr s) = ERROR_SUCCESS.
Proof. intros F. unfold at_LExit, WcaFinalize. rewrite SUCCEEDED_FAILED, F. reflexivity. Qed.

Lemma at_LExit_staged (hr : HRESULT) (s : State) :
  staged (snd (at_LExit hr s)) = staged s.
Proof.
  unfold at_LExit, WcaFinalize, MsiCloseHandle.
  destruct (hColumns s =? NULL_HANDLE); simpl;
    destruct (hTable s =? NULL_HANDLE); reflexivity.
Qed.

(** When the body of the loop leaves by [LExit] on the row after [pre],
    the action goes from there straight to the code at [LExit]. *)
Lemma pass_aborts (E : Engine) (v : MsiView) (pre post : list MsiRecord)
    (r : MsiRecord) (s1 s2 : State) (hr : HRESULT) :
  scanned_view E = Some v ->
  view_rows v = pre ++ r :: post ->
  reaches E pre s1 ->
  loop_body E r (log s1 [CallWcaFetchRecord]) = (LExit hr, s2) ->
  WixRemoveRegistryKeyEx E = at_LExit hr s2.
Proof.
  intros V Rows Pre B.
  rewrite (WixRemoveRegistryKeyEx_scanned E v V).
  assert (W : while_fetch E (view_rows v) scan_start = (LExit hr, s2)).
  { rewrite Rows, (while_fetch_app E pre _ _ _ Pre).
    now apply while_fetch_cons_LExit. }
  now rewrite (fetch_loop_LExit E v _ _ _ W).
Qed.

(** A loaded rule that passes its condition and has an output row goes
    through the reads and then submits that row. *)
Lemma loop_body_row (E : Engine) (r : MsiRecord) (x : Rule) (row : staged_row)
    (s : State) :
  load r = Some x ->
  condition_applies E (rule_condition x) = true ->
  output_row x = Some row ->
  loop_body E r s = after_append E x row (log s (read_events E x)).
Proof.
  intros L C O. rewrite (loop_body_loaded E r x s L), C.
  now apply switch_iMode_row.
Qed.

Lemma head_events_no_add_temp (E : Engine) (sczId sczCondition : LPWSTR) :
  Forall (fun e => is_add_temp e = false) (head_events E sczId sczCondition).
Proof.
  unfold head_events, condition_events.
  destruct (nonempty_str sczCondition); repeat constructor.
Qed.

Lemma filter_none {A} (f : A -> bool) (l : list A) :
  Forall (fun a => f a = false) l -> filter f l = [].
Proof. induction 1 as [|a l H _ IH]; simpl; [reflexivity | now rewrite H]. Qed.

Lemma filter_add_temp_head_events (E : Engine) (sczId sczCondition : LPWSTR) :
  filter is_add_temp (head_events E sczId sczCondition) = [].
Proof. apply filter_none, head_events_no_add_temp. Qed.

Lemma filter_add_temp_read_events (E : Engine) (x : Rule) :
  filter is_add_temp (read_events E x) = [].
Proof.
  unfold read_events. rewrite filter_app, filter_add_temp_head_events. reflexivity.
Qed.

(** The append calls and the staged rows of a step that submits [row]. *)
Lemma after_append_summary (E : Engine) (x : Rule) (row : staged_row) (s : State) :
  let out := after_append E x row (log s (read_events E x)) in
  filter is_add_temp (events_since s (snd out)) = [add_call row]
  /\ (FAILED (append_status E s row) = false ->
      fst out = Ret tt /\ staged (snd out) = staged s ++ [row])
  /\ (FAILED (append_status E s row) = true ->
      fst out = LExit (append_status E s row) /\ staged (snd out) = staged s).
Proof.
  unfold after_append, append_status. simpl.
  destruct (engine_add_temp E (staged s) (hTable s) (hColumns s) (fst row)
              (Z.of_nat (List.length (snd row))) (snd row)) as [hr [hT hC]].
  simpl. destruct (FAILED hr); simpl.
  - split; [|split; [discriminate|auto]].
    erewrite events_since_app by (simpl; rewrite <- app_assoc; reflexivity).
    rewrite filter_app, filter_add_temp_read_events. reflexivity.
  - split; [|split; [auto|discriminate]].
    erewrite events_since_app by (simpl; rewrite <- app_assoc; reflexivity).
    rewrite filter_app, filter_add_temp_read_events. reflexivity.
Qed.

(* ------------------------------------------------------------------ *)
(** ** The scenarios of the spec's section 8 *)

Example scenario_R1 :
  let '(er, s) := WixRemoveRegistryKeyEx (Sample.engine [Sample.R1]) in
  er = ERROR_SUCCESS /\
  staged s = [("RemoveRegistry",
               [AStr (Some "R1"); AInt 2; AStr (Some "SOFTWARE\X");
                AStr (Some "-"); AStr (Some "C1")])].
Proof. vm_compute. split; reflexivity. Qed.

Example scenario_R2 :
  let '(er, s) := WixRemoveRegistryKeyEx (Sample.engine [Sample.R2]) in
  er = ERROR_SUCCESS /\
  staged s = [("Registry",
               [AStr (Some "R2"); AInt 0; AStr (Some "SOFTWARE\Y");
                AStr (Some "-"); AStr None; AStr (Some "C2")])].
Proof. vm_compute. split; reflexivity. Qed.

Example scenario_R2_false :
  let '(er, s) := WixRemoveRegistryKeyEx (Sample.engine [Sample.R2_false]) in
  er = ERROR_SUCCESS /\ staged s = [].
Proof. vm_compute. split; reflexivity. Qed.

Example scenario_missing_key :
  let '(er, s) :=
    WixRemoveRegistryKeyEx (Sample.engine [Sample.R3_no_key; Sample.R1]) in
  er = ERROR_INSTALL_FAILURE /\ staged s = [].
Proof. vm_compute. split; reflexivity. Qed.

(* ------------------------------------------------------------------ *)
(** ** The translator *)

(** The body of the loop on a rule of mode 1, in any state: exactly one
    append call, of 5 columns to [RemoveRegistry]; when the engine accepts
    it the body completes and the staged rows grow by that row. *)
Lemma loop_body_remove_on_install (E : Engine) (r : MsiRecord)
    (x : Rule) (s : State) :
  load r = Some x ->
  rule_mode x = 1 ->
  condition_applies E (rule_condition x) = true ->
  filter is_add_temp (events_since s (snd (loop_body E r s)))
  = [CallWcaAddTempRecord "RemoveRegistry" 0 5
       [AStr (rule_id x); AInt (rule_root x); AStr (rule_key x);
        AStr (Some "-"); AStr (rule_component x)]]
  /\ (FAILED (append_status E s (immediate_removal_row x)) = false ->
      fst (loop_body E r s) = Ret tt
      /\ staged (snd (loop_body E r s))
         = staged s ++
           [("RemoveRegistry",
             [AStr (rule_id x); AInt (rule_root x); AStr (rule_key x);
              AStr (Some "-"); AStr (rule_component x)])]).
Proof.
  intros L Mode C.
  assert (O : output_row x = Some (immediate_removal_row x)).
  { unfold output_row. now rewrite Mode. }
  rewrite (loop_body_row E r x _ s L C O).
  destruct (after_append_summary E x (immediate_removal_row x) s) as (Calls & Ok & _).
  split; [exact Calls | exact Ok].
Qed.

(** The same for a rule of mode 2: one append call of 6 columns to
    [Registry], with NULL in the value slot. *)
Lemma loop_body_remove_on_uninstall (E : Engine) (r : MsiRecord)
    (x : Rule) (s : State) :
  load r = Some x ->
  rule_mode x = 2 ->
  condition_applies E (rule_condition x) = true ->
  filter is_add_temp (events_since s (snd (loop_body E r s)))
  = [CallWcaAddTempRecord "Registry" 0 6
       [AStr (rule_id x); AInt (rule_root x); AStr (rule_key x);
        AStr (Some "-"); AStr None; AStr (rule_component x)]]
  /\ (FAILED (append_status E s (scheduled_removal_row x)) = false ->
      fst (loop_body E r s) = Ret tt
      /\ staged (snd (loop_body E r s))
         = staged s ++
           [("Registry",
             [AStr (rule_id x); AInt (rule_root x); AStr (rule_key x);
              AStr (Some "-"); AStr None; AStr (rule_component x)])]).
Proof.
  intros L Mode C.
  assert (O : output_row x = Some (scheduled_removal_row x)).
  { unfold output_row. now rewrite Mode. }
  rewrite (loop_body_row E r x _ s L C O).
  destruct (after_append_summary E x (scheduled_removal_row x) s) as (Calls & Ok & _).
  split; [exact Calls | exact Ok].
Qed.

(* ------------------------------------------------------------------ *)
(** ** What a computation adds to the trace *)

Section Emits.

Variable P : event -> Prop.

Lemma emits_ret {A} (a : A) : emits P (ret a).
Proof. intros s. exists []. simpl. now rewrite app_nil_r. Qed.

Lemma emits_goto {A} (hr : HRESULT) : emits P (@goto_LExit A hr).
Proof. intros s. exists []. simpl. now rewrite app_nil_r. Qed.

Lemma emits_emit (e : event) : P e -> emits P (emit e).
Proof. intros H s. exists [e]. simpl. auto. Qed.

Lemma emits_bind {A B} (m : M A) (k : A -> M B) :
  emits P m -> (forall a, emits P (k a)) -> emits P (bind m k).
Proof.
  intros Hm Hk s. destruct (Hm s) as [es [T F]]. unfold bind.
  destruct (m s) as [[a|hr] s']; simpl in *.
  - destruct (Hk a s') as [es' [T' F']]. exists (es ++ es').
    rewrite T', T, app_assoc. split; [reflexivity|]. now apply Forall_app.
  - now exists es.
Qed.

Lemma emits_ExitOnFailure (hr : HRESULT) (fmt : string) (args : list arg) :
  P (CallExitTrace hr fmt args) -> emits P (ExitOnFailure hr fmt args).
Proof.
  intros H. unfold ExitOnFailure. destruct (FAILED hr).
  - apply emits_bind; [now apply emits_emit | intros; apply emits_goto].
  - apply emits_ret.
Qed.

Lemma emits_WcaAddTempRecord (E : Engine) (table : string) (u n : Z)
    (args : list arg) :
  P (CallWcaAddTempRecord table u n args) ->
  emits P (WcaAddTempRecord E table u n args).
Proof.
  intros H s. exists [CallWcaAddTempRecord table u n args].
  unfold WcaAddTempRecord, bind. simpl.
  destruct (engine_add_temp E (staged s) (hTable s) (hColumns s) table n args)
    as [hr [hT hC]]. simpl. auto.
Qed.

End Emits.

Ltac emits_auto :=
  repeat first
    [ apply emits_ret
    | apply emits_emit; reflexivity
    | apply emits_ExitOnFailure; reflexivity
    | apply emits_WcaAddTempRecord; reflexivity
    | apply emits_bind; [|intros]
    | match goal with
      | |- emits _ (match ?p with pair _ _ => _ end) => destruct p
      | |- emits _ (if ?b then _ else _) => destruct b
      end ].

(** Nothing in [translate] evaluates a condition. *)
Lemma translate_no_evaluate (E : Engine) (r : MsiRecord) (sczId : LPWSTR) :
  emits (fun e => is_evaluate e = false) (translate E r sczId).
Proof.
  unfold translate, switch_iMode, WcaGetRecordString, WcaGetRecordInteger, WcaLog.
  emits_auto.
Qed.

(** A record whose identity and condition are read and whose condition is
    skipped produces only four events. *)
Lemma loop_body_skipped (E : Engine) (r : MsiRecord) (s : State) :
  FAILED (fst (rec_string r rrxqId)) = false ->
  FAILED (fst (rec_string r rrxqCondition)) = false ->
  nonempty_str (snd (rec_string r rrxqCondition)) = true ->
  engine_evaluate E (snd (rec_string r rrxqCondition)) <> MSICONDITION_TRUE ->
  loop_body E r s =
    (Ret tt,
     log s [CallWcaGetRecordString rrxqId; CallWcaGetRecordString rrxqCondition;
            CallMsiEvaluateConditionW (snd (rec_string r rrxqCondition));
            CallWcaLog LOGMSG_STANDARD
              "False or invalid condition for row %S: %S; skipping."
              [AStr (snd (rec_string r rrxqId));
               AStr (snd (rec_string r rrxqCondition))]]).
Proof.
  intros Fid Fc N Ev.
  rewrite (loop_body_head E r s _ _ _ _ (surjective_pairing _) Fid
             (surjective_pairing _) Fc).
  unfold condition_applies, head_events, condition_events. rewrite N.
  destruct (engine_evaluate E (snd (rec_string r rrxqCondition))); try reflexivity.
  now elim Ev.
Qed.

(* ------------------------------------------------------------------ *)
(** ** The condition check *)

(** C4. When the identity and the condition of a record are read and
    the condition, not empty, evaluates to something other than True
    (False, or the invalid outcomes), the body of the loop evaluates the
    condition, logs "False or invalid condition ...; skipping." and
    completes without leaving by [LExit]: nothing is staged, whatever the
    mode column holds, the loop goes on with the remaining rows, and the
    outcome is the same for every engine whose evaluation is not True. *)
Theorem false_or_invalid_condition_skips (E : Engine) (r : MsiRecord)
    (rest : list MsiRecord) (s : State) :
  FAILED (fst (rec_string r rrxqId)) = false ->
  FAILED (fst (rec_string r rrxqCondition)) = false ->
  nonempty_str (snd (rec_string r rrxqCondition)) = true ->
  engine_evaluate E (snd (rec_string r rrxqCondition)) <> MSICONDITION_TRUE ->
  fst (loop_body E r s) = Ret tt
  /\ staged (snd (loop_body E r s)) = staged s
  /\ filter is_log (events_since s (snd (loop_body E r s)))
     = [CallWcaLog LOGMSG_STANDARD
          "False or invalid condition for row %S: %S; skipping."
          [AStr (snd (rec_string r rrxqId));
           AStr (snd (rec_string r rrxqCondition))]]
  /\ while_fetch E (r :: rest) s
     = while_fetch E rest (snd (loop_body E r (log s [CallWcaFetchRecord])))
  /\ (forall E' : Engine,
        engine_evaluate E' (snd (rec_string r rrxqCondition)) <> MSICONDITION_TRUE ->
        loop_body E' r s = loop_body E r s).
Proof.
  intros Fid Fc N Ev.
  rewrite (loop_body_skipped E r s Fid Fc N Ev). cbn [fst snd].
  repeat split.
  - now rewrite events_since_log.
  - apply while_fetch_cons_Ret.
    now rewrite (loop_body_skipped E r _ Fid Fc N Ev).
  - intros E' Ev'. now rewrite (loop_body_skipped E' r s Fid Fc N Ev').
Qed.

Lemma false_or_invalid_condition_skips_witness :
  fst (loop_body (Sample.engine []) Sample.R2_false initial_state) = Ret tt
  /\ staged (snd (loop_body (Sample.engine []) Sample.R2_false initial_state)) = [].
Proof.
  destruct (false_or_invalid_condition_skips (Sample.engine []) Sample.R2_false []
              initial_state eq_refl eq_refl eq_refl)
    as (Done & Staged & _).
  - simpl. discriminate.
  - split; [exact Done | exact Staged].
Defined.

(** C10. Under the same conditions the only columns of the record that
    are read are [Id] and [Condition]: no read of [Component_], [Root],
    [Key] or [InstallMode] appears in the trace, and the outcome does not
    depend on what those columns hold, so a read error there cannot make
    the body leave by [LExit]. *)
Theorem skipped_row_reads_two_columns (E : Engine) (r : MsiRecord) (s : State) :
  FAILED (fst (rec_string r rrxqId)) = false ->
  FAILED (fst (rec_string r rrxqCondition)) = false ->
  nonempty_str (snd (rec_string r rrxqCondition)) = true ->
  engine_evaluate E (snd (rec_string r rrxqCondition)) <> MSICONDITION_TRUE ->
  filter is_column_read (events_since s (snd (loop_body E r s)))
  = [CallWcaGetRecordString rrxqId; CallWcaGetRecordString rrxqCondition]
  /\ (forall r' : MsiRecord,
        rec_string r' rrxqId = rec_string r rrxqId ->
        rec_string r' rrxqCondition = rec_string r rrxqCondition ->
        loop_body E r' s = loop_body E r s
        /\ fst (loop_body E r' s) = Ret tt).
Proof.
  intros Fid Fc N Ev. split.
  - rewrite (loop_body_skipped E r s Fid Fc N Ev). cbn [fst snd].
    now rewrite events_since_log.
  - intros r' Hid Hc.
    assert (B' : loop_body E r' s = loop_body E r s).
    { rewrite (loop_body_skipped E r s Fid Fc N Ev).
      rewrite <- Hid, <- Hc in *.
      now apply loop_body_skipped. }
    split; [exact B'|].
    rewrite B', (loop_body_skipped E r s Fid Fc N Ev). reflexivity.
Qed.

Lemma skipped_row_reads_two_columns_witness :
  filter is_column_read
    (events_since initial_state
       (snd (loop_body (Sample.engine []) Sample.R0_skipped_no_key initial_state)))
  = [CallWcaGetRecordString rrxqId; CallWcaGetRecordString rrxqCondition]
  /\ fst (loop_body (Sample.engine []) Sample.R0_skipped_no_key initial_state)
     = Ret tt.
Proof.
  destruct (skipped_row_reads_two_columns (Sample.engine [])
              Sample.R0_skipped_no_key initial_state eq_refl eq_refl eq_refl)
    as (Reads & Frame).
  - simpl. discriminate.
  - split.
    + exact Reads.
    + exact (proj2 (Frame Sample.R0_skipped_no_key eq_refl eq_refl)).
Defined.

(** C6. When the condition read gives NULL or a string whose first
    character is the terminator (an empty condition), the body of the loop
    goes from the two reads directly to [translate], and no
    [MsiEvaluateConditionW] call appears among the events of the row. *)
Theorem empty_condition_not_evaluated (E : Engine) (r : MsiRecord) (s : State) :
  FAILED (fst (rec_string r rrxqId)) = false ->
  FAILED (fst (rec_string r rrxqCondition)) = false ->
  nonempty_str (snd (rec_string r rrxqCondition)) = false ->
  loop_body E r s
  = translate E r (snd (rec_string r rrxqId))
      (log s [CallWcaGetRecordString rrxqId; CallWcaGetRecordString rrxqCondition])
  /\ filter is_evaluate (events_since s (snd (loop_body E r s))) = [].
Proof.
  intros Fid Fc N.
  assert (B : loop_body E r s
              = translate E r (snd (rec_string r rrxqId))
                  (log s [CallWcaGetRecordString rrxqId;
                          CallWcaGetRecordString rrxqCondition])).
  { rewrite (loop_body_head E r s _ _ _ _ (surjective_pairing _) Fid
               (surjective_pairing _) Fc).
    unfold condition_applies, head_events, condition_events. now rewrite N. }
  split; [exact B|]. rewrite B.
  destruct (translate_no_evaluate E r (snd (rec_string r rrxqId))
              (log s [CallWcaGetRecordString rrxqId;
                      CallWcaGetRecordString rrxqCondition])) as [es [T F]].
  erewrite events_since_app by (rewrite T; simpl; rewrite <- app_assoc; reflexivity).
  rewrite filter_app, (filter_none _ _ F). reflexivity.
Qed.

Lemma empty_condition_not_evaluated_witness :
  filter is_evaluate
    (events_since initial_state
       (snd (loop_body (Sample.engine []) Sample.R1 initial_state))) = []
  /\ staged (snd (loop_body (Sample.engine []) Sample.R1 initial_state))
     = [("RemoveRegistry",
         [AStr (Some "R1"); AInt 2; AStr (Some "SOFTWARE\X"); AStr (Some "-");
          AStr (Some "C1")])].
Proof.
  split.
  - exact (proj2 (empty_condition_not_evaluated (Sample.engine []) Sample.R1
                    initial_state eq_refl eq_refl eq_refl)).
  - reflexivity.
Defined.

(** Both ways of giving no condition count as empty. *)
Example absent_condition_is_empty : nonempty_str None = false.
Proof. reflexivity. Qed.

Example empty_condition_is_empty : nonempty_str (Some "") = false.
Proof. reflexivity. Qed.

(** C5. A rule read in full whose condition is empty or True and whose
    mode is neither 1 nor 2 completes the body of the loop right after the
    read of the mode: no append call is made and nothing is staged, the
    body does not leave by [LExit], the only log message of the row is the
    "True condition" one of a non-empty condition (none at all for an
    empty condition), and the loop goes on with the remaining rows. *)
Theorem unrecognized_mode_is_silent (E : Engine) (r : MsiRecord) (x : Rule)
    (rest : list MsiRecord) (s : State) :
  load r = Some x ->
  condition_applies E (rule_condition x) = true ->
  rule_mode x <> 1 ->
  rule_mode x <> 2 ->
  fst (loop_body E r s) = Ret tt
  /\ staged (snd (loop_body E r s)) = staged s
  /\ events_since s (snd (loop_body E r s))
     = [CallWcaGetRecordString rrxqId; CallWcaGetRecordString rrxqCondition]
       ++ condition_events E (rule_id x) (rule_condition x)
       ++ [CallWcaGetRecordString rrxqComponent; CallWcaGetRecordInteger rrxqRoot;
           CallWcaGetRecordString rrxqKey; CallWcaGetRecordInteger rrxqMode]
  /\ filter is_add_temp (events_since s (snd (loop_body E r s))) = []
  /\ filter is_log (events_since s (snd (loop_body E r s)))
     = (if nonempty_str (rule_condition x)
        then [CallWcaLog LOGMSG_STANDARD "True condition for row %S: %S; processing."
                [AStr (rule_id x); AStr (rule_condition x)]]
        else [])
  /\ while_fetch E (r :: rest) s
     = while_fetch E rest (snd (loop_body E r (log s [CallWcaFetchRecord]))).
Proof.
  intros L C M1 M2.
  assert (O : output_row x = None).
  { unfold output_row.
    destruct (Z.eqb_spec (rule_mode x) 1); [contradiction|].
    destruct (Z.eqb_spec (rule_mode x) 2); [contradiction|]. reflexivity. }
  assert (B : forall s0, loop_body E r s0 = (Ret tt, log s0 (read_events E x))).
  { intros s0. rewrite (loop_body_loaded E r x s0 L), C.
    now apply switch_iMode_other. }
  rewrite (B s). cbn [fst snd]. rewrite events_since_log.
  split; [reflexivity|]. split; [reflexivity|]. split; [|split; [|split]].
  - unfold read_events, head_events. now rewrite <- app_assoc.
  - apply filter_add_temp_read_events.
  - unfold read_events, head_events, condition_events.
    unfold condition_applies in C.
    destruct (nonempty_str (rule_condition x)); simpl in *; [|reflexivity].
    now rewrite C.
  - apply while_fetch_cons_Ret. now rewrite B.
Qed.

Lemma unrecognized_mode_is_silent_witness :
  fst (loop_body (Sample.engine []) Sample.R5_mode3 initial_state) = Ret tt
  /\ staged (snd (loop_body (Sample.engine []) Sample.R5_mode3 initial_state)) = []
  /\ filter is_log
       (events_since initial_state
          (snd (loop_body (Sample.engine []) Sample.R5_mode3 initial_state))) = [].
Proof.
  destruct (unrecognized_mode_is_silent (Sample.engine []) Sample.R5_mode3
              (mkRule (Some "R5") (Some "C5") 1 (Some "SOFTWARE\W") 3 (Some ""))
              [] initial_state eq_refl eq_refl)
    as (Done & Staged & _ & _ & Logs & _).
  - simpl. lia.
  - simpl. lia.
  - split; [exact Done | split; [exact Staged | exact Logs]].
Defined.

(* ------------------------------------------------------------------ *)
(** ** The absent table *)

(** C7. When initialisation succeeds and the table-existence check gives
    anything but [S_OK], the action logs one message and returns
    [ERROR_SUCCESS]: the view is never opened, no record is fetched, no
    append call is made, no handle is closed and nothing is staged. *)
Theorem absent_table_is_noop (E : Engine) :
  FAILED (engine_initialize E) = false ->
  engine_table_exists E "WixRemoveRegistryKeyEx" <> S_OK ->
  WixRemoveRegistryKeyEx E
  = (ERROR_SUCCESS,
     mkState
       [CallWcaInitialize "WixRemoveRegistryKeyEx";
        CallWcaTableExists "WixRemoveRegistryKeyEx";
        CallWcaLog LOGMSG_STANDARD
          "WixRemoveRegistryKeyEx table doesn't exist, so there are no registry keys to remove."
          [];
        CallWcaFinalize ERROR_SUCCESS]
       NULL_HANDLE NULL_HANDLE []).
Proof.
  intros F0 T.
  unfold WixRemoveRegistryKeyEx, run.
  unfold bind at 1. unfold WcaInitialize, bind at 1. rewrite emit_eq. unfold ret at 1.
  passes.
  unfold bind at 1. unfold WcaTableExists, bind at 1. rewrite emit_eq. unfold ret at 1.
  destruct (Z.eqb_spec (engine_table_exists E "WixRemoveRegistryKeyEx") S_OK);
    [contradiction|].
  simpl. unfold at_LExit. simpl. rewrite SUCCEEDED_FAILED, F0. reflexivity.
Qed.

Lemma absent_table_is_noop_witness :
  fst (WixRemoveRegistryKeyEx Sample.engine_no_table) = ERROR_SUCCESS
  /\ staged (snd (WixRemoveRegistryKeyEx Sample.engine_no_table)) = []
  /\ filter is_add_temp (trace (snd (WixRemoveRegistryKeyEx Sample.engine_no_table)))
     = [].
Proof.
  rewrite (absent_table_is_noop Sample.engine_no_table eq_refl).
  - repeat split.
  - simpl. discriminate.
Defined.

(* ------------------------------------------------------------------ *)
(** ** Fatal errors *)

(** A record that is not skipped and has a column that fails to read
    makes the body leave by [LExit] with a failed status, before any
    append call. *)
Lemma loop_body_unreadable (E : Engine) (r : MsiRecord) (s : State) :
  missing_required r = true \/ FAILED (fst (rec_string r rrxqCondition)) = true ->
  skipped E r = false ->
  exists hr es,
    loop_body E r s = (LExit hr, log s es)
    /\ FAILED hr = true
    /\ Forall (fun e => is_add_temp e = false) es.
Proof.
  intros M S.
  destruct (FAILED (fst (rec_string r rrxqId))) eqn:Fid.
  { rewrite loop_body_id_fail by assumption.
    eexists _, _. split; [reflexivity|]. split; [assumption | repeat constructor]. }
  destruct (FAILED (fst (rec_string r rrxqCondition))) eqn:Fc.
  { rewrite loop_body_cond_fail by assumption.
    eexists _, _. split; [reflexivity|]. split; [assumption | repeat constructor]. }
  unfold skipped in S. rewrite Fid, Fc in S. simpl in S.
  apply negb_false_iff in S.
  rewrite (loop_body_head E r s _ _ _ _ (surjective_pairing _) Fid
             (surjective_pairing _) Fc), S.
  destruct M as [M|M]; [|discriminate].
  unfold missing_required in M. rewrite Fid in M. simpl in M.
  destruct (translate_missing E r (snd (rec_string r rrxqId))
              (log s (head_events E (snd (rec_string r rrxqId))
                        (snd (rec_string r rrxqCondition)))) M)
    as (hr & es & T & F & A).
  rewrite T, log_log. eexists _, _. split; [reflexivity|]. split; [assumption|].
  apply Forall_app. split; [apply head_events_no_add_temp | assumption].
Qed.

Lemma load_None (r : MsiRecord) :
  load r = None ->
  missing_required r = true \/ FAILED (fst (rec_string r rrxqCondition)) = true.
Proof.
  unfold load, missing_required.
  destruct (rec_string r rrxqId) as [h1 v1], (rec_string r rrxqComponent) as [h2 v2],
    (rec_integer r rrxqRoot) as [h3 v3], (rec_string r rrxqKey) as [h4 v4],
    (rec_integer r rrxqMode) as [h5 v5], (rec_string r rrxqCondition) as [h6 v6].
  cbn [fst].
  destruct (FAILED h1), (FAILED h2), (FAILED h3), (FAILED h4), (FAILED h5), (FAILED h6);
    simpl; intros H; try discriminate; auto.
Qed.

(** The code at [LExit] adds handle closes and the finalize call. *)
Lemma at_LExit_trace (hr : HRESULT) (s : State) :
  exists closes,
    Forall (fun e => is_close e = true) closes
    /\ trace (snd (at_LExit hr s))
       = trace s ++ closes ++ [CallWcaFinalize (fst (at_LExit hr s))].
Proof.
  unfold at_LExit, WcaFinalize, MsiCloseHandle.
  destruct (hColumns s =? NULL_HANDLE); simpl;
    destruct (hTable s =? NULL_HANDLE); simpl.
  - exists []. split; [constructor|]. reflexivity.
  - exists [CallMsiCloseHandle (hTable s)]. split; [repeat constructor|].
    now rewrite <- app_assoc.
  - exists [CallMsiCloseHandle (hColumns s)]. split; [repeat constructor|].
    now rewrite <- app_assoc.
  - exists [CallMsiCloseHandle (hColumns s); CallMsiCloseHandle (hTable s)].
    split; [repeat constructor|]. now rewrite <- !app_assoc.
Qed.

(** C1, as the code has it.  On a row the loop reaches, a failed read of
    the id column, or of the component, root, key or mode column when the
    row is not skipped on its condition, ends the pass: the action
    returns [ERROR_INSTALL_FAILURE] and the staged rows are those staged
    before that row, so nothing is appended for it or for any later row.
    (A row skipped on a False or invalid condition never has those four
    columns read.) *)
Theorem missing_column_aborts_pass (E : Engine) (v : MsiView)
    (pre post : list MsiRecord) (r : MsiRecord) (s1 : State) :
  scanned_view E = Some v ->
  view_rows v = pre ++ r :: post ->
  reaches E pre s1 ->
  missing_required r = true ->
  skipped E r = false ->
  fst (WixRemoveRegistryKeyEx E) = ERROR_INSTALL_FAILURE
  /\ staged (snd (WixRemoveRegistryKeyEx E)) = staged s1.
Proof.
  intros V Rows Pre M S.
  destruct (loop_body_unreadable E r (log s1 [CallWcaFetchRecord]) (or_introl M) S)
    as (hr & es & B & F & _).
  rewrite (pass_aborts E v pre post r s1 _ hr V Rows Pre B).
  split; [now apply at_LExit_failed | now rewrite at_LExit_staged].
Qed.

Lemma missing_column_aborts_pass_witness :
  fst (WixRemoveRegistryKeyEx (Sample.engine [Sample.R1; Sample.R3_no_key; Sample.R2]))
  = ERROR_INSTALL_FAILURE
  /\ staged (snd (WixRemoveRegistryKeyEx
                    (Sample.engine [Sample.R1; Sample.R3_no_key; Sample.R2])))
     = [("RemoveRegistry",
         [AStr (Some "R1"); AInt 2; AStr (Some "SOFTWARE\X"); AStr (Some "-");
          AStr (Some "C1")])].
Proof.
  exact (missing_column_aborts_pass
           (Sample.engine [Sample.R1; Sample.R3_no_key; Sample.R2])
           (Sample.view [Sample.R1; Sample.R3_no_key; Sample.R2])
           [Sample.R1] [Sample.R2] Sample.R3_no_key
           (snd (while_fetch (Sample.engine []) [Sample.R1] scan_start))
           eq_refl eq_refl eq_refl eq_refl eq_refl).
Defined.

(** The claim without the exception fails: a row with a false condition
    and an unreadable [Key] column is fetched, the pass succeeds and the
    next row is staged. *)
Lemma skipped_row_with_missing_key_does_not_abort :
  ~ every_missing_column_aborts
      (Sample.engine [Sample.R0_skipped_no_key; Sample.R1]).
Proof.
  intros H.
  destruct (H (Sample.view [Sample.R0_skipped_no_key; Sample.R1])
              [] [Sample.R1] Sample.R0_skipped_no_key scan_start
              eq_refl eq_refl eq_refl eq_refl) as [Failure _].
  vm_compute in Failure. discriminate.
Qed.

Example skipped_row_with_missing_key_run :
  missing_required Sample.R0_skipped_no_key = true
  /\ fst (WixRemoveRegistryKeyEx (Sample.engine [Sample.R0_skipped_no_key; Sample.R1]))
     = ERROR_SUCCESS
  /\ staged (snd (WixRemoveRegistryKeyEx
                    (Sample.engine [Sample.R0_skipped_no_key; Sample.R1])))
     = [("RemoveRegistry",
         [AStr (Some "R1"); AInt 2; AStr (Some "SOFTWARE\X"); AStr (Some "-");
          AStr (Some "C1")])].
Proof. vm_compute. repeat split. Qed.

(** C8. When the loop reaches a rule whose append the engine refuses,
    the action does nothing more than trace the failure, close the open
    handles and finalize with [ERROR_INSTALL_FAILURE]: no further record
    is fetched, and the staged rows are exactly those staged before that
    rule. *)
Theorem failed_append_aborts_pass (E : Engine) (v : MsiView)
    (pre post : list MsiRecord) (r : MsiRecord) (x : Rule) (row : staged_row)
    (s1 : State) :
  scanned_view E = Some v ->
  view_rows v = pre ++ r :: post ->
  reaches E pre s1 ->
  load r = Some x ->
  condition_applies E (rule_condition x) = true ->
  output_row x = Some row ->
  FAILED (append_status E s1 row) = true ->
  fst (WixRemoveRegistryKeyEx E) = ERROR_INSTALL_FAILURE
  /\ staged (snd (WixRemoveRegistryKeyEx E)) = staged s1
  /\ exists closes,
       Forall (fun e => is_close e = true) closes
       /\ trace (snd (WixRemoveRegistryKeyEx E))
          = trace s1
            ++ [CallWcaFetchRecord]
            ++ read_events E x
            ++ [adding_log x; add_call row;
                CallExitTrace (append_status E s1 row) (add_failure_message x)
                  [AStr (rule_id x)]]
            ++ closes
            ++ [CallWcaFinalize ERROR_INSTALL_FAILURE].
Proof.
  intros V Rows Pre L C O F.
  pose proof (loop_body_row E r x row (log s1 [CallWcaFetchRecord]) L C O) as B.
  unfold after_append in B. unfold append_status in F |- *.
  cbn [staged hTable hColumns log] in B.
  destruct (engine_add_temp E (staged s1) (hTable s1) (hColumns s1) (fst row)
              (Z.of_nat (List.length (snd row))) (snd row)) as [hr [hT hC]].
  cbn [fst] in F |- *. rewrite F in B.
  rewrite (pass_aborts E v pre post r s1 _ hr V Rows Pre B).
  split; [now apply at_LExit_failed|].
  split; [now rewrite at_LExit_staged|].
  match goal with
  | |- context [at_LExit hr ?s2] =>
      destruct (at_LExit_trace hr s2) as (closes & Cl & T);
      rewrite (at_LExit_failed hr s2 F) in T
  end.
  exists closes. split; [exact Cl|].
  rewrite T. cbn [trace log]. rewrite <- !app_assoc. reflexivity.
Qed.

Lemma failed_append_aborts_pass_witness :
  fst (WixRemoveRegistryKeyEx
         (Sample.engine_rejecting "R2" [Sample.R1; Sample.R2; Sample.R5_mode3]))
  = ERROR_INSTALL_FAILURE
  /\ staged (snd (WixRemoveRegistryKeyEx
                    (Sample.engine_rejecting "R2"
                       [Sample.R1; Sample.R2; Sample.R5_mode3])))
     = [("RemoveRegistry",
         [AStr (Some "R1"); AInt 2; AStr (Some "SOFTWARE\X"); AStr (Some "-");
          AStr (Some "C1")])].
Proof.
  destruct (failed_append_aborts_pass
              (Sample.engine_rejecting "R2" [Sample.R1; Sample.R2; Sample.R5_mode3])
              (Sample.view [Sample.R1; Sample.R2; Sample.R5_mode3])
              [Sample.R1] [Sample.R5_mode3] Sample.R2
              (mkRule (Some "R2") (Some "C2") 0 (Some "SOFTWARE\Y") 2
                 (Some "VersionNT >= 600"))
              (scheduled_removal_row
                 (mkRule (Some "R2") (Some "C2") 0 (Some "SOFTWARE\Y") 2
                    (Some "VersionNT >= 600")))
              (snd (while_fetch (Sample.engine_rejecting "R2" []) [Sample.R1]
                      scan_start))
              eq_refl eq_refl eq_refl eq_refl eq_refl eq_refl eq_refl)
    as (Failure & Staged & _).
  split; [exact Failure | exact Staged].
Defined.

(* ------------------------------------------------------------------ *)
(** ** Required fields *)

(** C9, as the code has it.  For a row that is not skipped on its
    condition, either all six columns read without failure, and then the
    append call (if the mode has one) carries the key and component as
    read, empty or not; or some column fails to read, and then the body
    leaves by [LExit] with a failed status, with no append call and
    nothing staged.  The values read are not tested for emptiness. *)
Theorem unreadable_row_is_fatal_not_processed (E : Engine) (r : MsiRecord)
    (s : State) :
  skipped E r = false ->
  match load r with
  | Some x =>
      filter is_add_temp (events_since s (snd (loop_body E r s)))
      = match output_row x with
        | Some row => [add_call row]
        | None => []
        end
  | None =>
      exists hr,
        fst (loop_body E r s) = LExit hr
        /\ FAILED hr = true
        /\ staged (snd (loop_body E r s)) = staged s
        /\ filter is_add_temp (events_since s (snd (loop_body E r s))) = []
  end.
Proof.
  intros S. destruct (load r) as [x|] eqn:L.
  - assert (C : condition_applies E (rule_condition x) = true).
    { destruct (load_Some _ _ L) as ([H1 F1] & _ & _ & _ & _ & [H6 F6]).
      unfold skipped in S. rewrite F1, F6, H6 in S. simpl in S.
      now apply negb_false_iff in S. }
    destruct (output_row x) as [row|] eqn:O.
    + rewrite (loop_body_row E r x row s L C O).
      now destruct (after_append_summary E x row s) as (Calls & _).
    + rewrite (loop_body_loaded E r x s L), C, (switch_iMode_other E x _ O).
      cbn [snd]. rewrite events_since_log. apply filter_add_temp_read_events.
  - destruct (loop_body_unreadable E r s (load_None r L) S) as (hr & es & B & F & A).
    exists hr. rewrite B. cbn [fst snd]. rewrite events_since_log.
    repeat split; [assumption | now apply filter_none].
Qed.

Lemma unreadable_row_is_fatal_not_processed_witness :
  (exists hr,
     fst (loop_body (Sample.engine []) Sample.R3_no_key initial_state) = LExit hr
     /\ FAILED hr = true
     /\ staged (snd (loop_body (Sample.engine []) Sample.R3_no_key initial_state)) = []
     /\ filter is_add_temp
          (events_since initial_state
             (snd (loop_body (Sample.engine []) Sample.R3_no_key initial_state)))
        = [])
  /\ filter is_add_temp
       (events_since initial_state
          (snd (loop_body (Sample.engine []) Sample.R9_empty initial_state)))
     = [CallWcaAddTempRecord "RemoveRegistry" 0 5
          [AStr (Some "R9"); AInt 2; AStr (Some ""); AStr (Some "-");
           AStr (Some "")]].
Proof.
  split.
  - exact (unreadable_row_is_fatal_not_processed (Sample.engine [])
             Sample.R3_no_key initial_state eq_refl).
  - exact (unreadable_row_is_fatal_not_processed (Sample.engine [])
             Sample.R9_empty initial_state eq_refl).
Defined.

(** The claim that such rows are never processed fails: a row whose key
    and component read as empty strings is staged and the pass
    succeeds. *)
Lemma empty_key_and_component_are_processed :
  ~ empty_key_or_component_aborts (Sample.engine [Sample.R9_empty]).
Proof.
  intros H.
  pose proof (H (Sample.view [Sample.R9_empty]) [] [] Sample.R9_empty scan_start
                eq_refl eq_refl eq_refl eq_refl (or_introl eq_refl)) as Failure.
  vm_compute in Failure. discriminate.
Qed.

Example empty_key_and_component_run :
  WixRemoveRegistryKeyEx (Sample.engine [Sample.R9_empty])
  = (ERROR_SUCCESS,
     mkState
       [CallWcaInitialize "WixRemoveRegistryKeyEx";
        CallWcaTableExists "WixRemoveRegistryKeyEx";
        CallWcaOpenExecuteView vcsRemoveRegistryKeyExQuery;
        CallWcaFetchRecord;
        CallWcaGetRecordString rrxqId; CallWcaGetRecordString rrxqCondition;
        CallWcaGetRecordString rrxqComponent; CallWcaGetRecordInteger rrxqRoot;
        CallWcaGetRecordString rrxqKey; CallWcaGetRecordInteger rrxqMode;
        CallWcaLog LOGMSG_STANDARD "Adding RemoveRegistry row: %ls/%d/%ls/-/%ls"
          [AStr (Some "R9"); AInt 2; AStr (Some ""); AStr (Some "")];
        CallWcaAddTempRecord "RemoveRegistry" 0 5
          [AStr (Some "R9"); AInt 2; AStr (Some ""); AStr (Some "-"); AStr (Some "")];
        CallWcaFetchRecord;
        CallMsiCloseHandle 8; CallMsiCloseHandle 7;
        CallWcaFinalize ERROR_SUCCESS]
       7 8
       [("RemoveRegistry",
         [AStr (Some "R9"); AInt 2; AStr (Some ""); AStr (Some "-"); AStr (Some "")])]).
Proof. vm_compute. reflexivity. Qed.

(* ------------------------------------------------------------------ *)
(** ** The output of a pass that succeeds *)

(** The body of the loop either completes, having staged the expected
    rows of the record, or leaves by [LExit] with a failed status. *)
Lemma loop_body_outcome (E : Engine) (r : MsiRecord) (s : State) :
  match loop_body E r s with
  | (Ret _, s') => staged s' = staged s ++ expected_rows E r
  | (LExit hr, _) => FAILED hr = true
  end.
Proof.
  unfold expected_rows. destruct (skipped E r) eqn:S.
  - unfold skipped in S.
    apply andb_prop in S as [S C]. apply andb_prop in S as [Fid Fc].
    apply negb_true_iff in Fid, Fc, C.
    rewrite (loop_body_head E r s _ _ _ _ (surjective_pairing _) Fid
               (surjective_pairing _) Fc), C.
    cbn [staged log]. now rewrite app_nil_r.
  - destruct (load r) as [x|] eqn:L.
    + assert (C : condition_applies E (rule_condition x) = true).
      { destruct (load_Some _ _ L) as ([H1 F1] & _ & _ & _ & _ & [H6 F6]).
        unfold skipped in S. rewrite F1, F6, H6 in S. simpl in S.
        now apply negb_false_iff in S. }
      destruct (output_row x) as [row|] eqn:O.
      * rewrite (loop_body_row E r x row s L C O).
        destruct (after_append_summary E x row s) as (_ & Ok & Ko).
        destruct (FAILED (append_status E s row)) eqn:F.
        -- destruct (Ko eq_refl) as [R _].
           destruct (after_append E x row (log s (read_events E x))) as [[[]|hr] s'];
             simpl in R; [discriminate|]. now injection R as ->.
        -- destruct (Ok eq_refl) as [R St].
           destruct (after_append E x row (log s (read_events E x))) as [[[]|hr] s'];
             simpl in R, St; [assumption|discriminate].
      * rewrite (loop_body_loaded E r x s L), C, (switch_iMode_other E x _ O).
        cbn [staged log]. now rewrite app_nil_r.
    + destruct (loop_body_unreadable E r s (load_None r L) S) as (hr & es & B & F & _).
      now rewrite B.
Qed.

Lemma while_fetch_outcome (E : Engine) (rows : list MsiRecord) (s : State) :
  match while_fetch E rows s with
  | (Ret _, s') => staged s' = staged s ++ flat_map (expected_rows E) rows
  | (LExit hr, _) => FAILED hr = true
  end.
Proof.
  revert s. induction rows as [|r rows IH]; intros s.
  - simpl. now rewrite app_nil_r.
  - pose proof (loop_body_outcome E r (log s [CallWcaFetchRecord])) as B.
    destruct (loop_body E r (log s [CallWcaFetchRecord])) as [[[]|hr] s'] eqn:Eq.
    + rewrite (while_fetch_cons_Ret E r rows s s' Eq).
      specialize (IH s'). destruct (while_fetch E rows s') as [[[]|hr] s''].
      * rewrite IH, B. cbn [staged log flat_map]. now rewrite app_assoc.
      * assumption.
    + now rewrite (while_fetch_cons_LExit E r rows s s' hr Eq).
Qed.

Lemma fetch_loop_outcome (E : Engine) (v : MsiView) (s : State) :
  match fetch_loop E v s with
  | (Ret hr, s') =>
      FAILED hr = false
      /\ staged s' = staged s ++ flat_map (expected_rows E) (view_rows v)
  | (LExit hr, _) => FAILED hr = true
  end.
Proof.
  unfold fetch_loop. pose proof (while_fetch_outcome E (view_rows v) s) as W.
  step. destruct (while_fetch E (view_rows v) s) as [[[]|hr] s']; [|assumption].
  step. unfold WcaFetchRecord. rewrite emit_eq.
  step. unfold ExitOnFailure.
  destruct (FAILED (if view_end v =? E_NOMOREITEMS then S_OK else view_end v)) eqn:F.
  - unfold bind, emit, goto_LExit. simpl. assumption.
  - unfold ret. split; assumption.
Qed.

(** A pass over an existing table that returns [ERROR_SUCCESS] has staged,
    in table order, exactly the expected rows of every record: one row per
    rule of mode 1 or 2 whose condition is empty or True, none for the
    others. *)
Theorem successful_pass_output (E : Engine) (v : MsiView) :
  scanned_view E = Some v ->
  fst (WixRemoveRegistryKeyEx E) = ERROR_SUCCESS ->
  staged (snd (WixRemoveRegistryKeyEx E)) = flat_map (expected_rows E) (view_rows v).
Proof.
  intros V. rewrite (WixRemoveRegistryKeyEx_scanned E v V), at_LExit_staged.
  pose proof (fetch_loop_outcome E v scan_start) as W.
  destruct (fetch_loop E v scan_start) as [[hr|hr] s']; cbn [fst snd status_of].
  - intros _. apply W.
  - intros Er. rewrite (at_LExit_failed hr s' W) in Er. discriminate.
Qed.

Lemma successful_pass_output_witness :
  staged (snd (WixRemoveRegistryKeyEx
                 (Sample.engine [Sample.R1; Sample.R2_false; Sample.R5_mode3;
                                 Sample.R2])))
  = [("RemoveRegistry",
      [AStr (Some "R1"); AInt 2; AStr (Some "SOFTWARE\X"); AStr (Some "-");
       AStr (Some "C1")]);
     ("Registry",
      [AStr (Some "R2"); AInt 0; AStr (Some "SOFTWARE\Y"); AStr (Some "-");
       AStr None; AStr (Some "C2")])].
Proof.
  exact (successful_pass_output
           (Sample.engine [Sample.R1; Sample.R2_false; Sample.R5_mode3; Sample.R2])
           (Sample.view [Sample.R1; Sample.R2_false; Sample.R5_mode3; Sample.R2])
           eq_refl eq_refl).
Defined.

(* ------------------------------------------------------------------ *)
(** ** Failures before and after the loop *)

(** X1. When [WcaInitialize] fails, the action traces the failure and
    finalizes with [ERROR_INSTALL_FAILURE]: the table is not looked for,
    no view is opened, nothing is fetched or staged and no handle is
    closed. *)
Theorem failed_initialize_aborts (E : Engine) :
  FAILED (engine_initialize E) = true ->
  WixRemoveRegistryKeyEx E
  = (ERROR_INSTALL_FAILURE,
     mkState
       [CallWcaInitialize "WixRemoveRegistryKeyEx";
        CallExitTrace (engine_initialize E)
          "Failed to initialize WixRemoveRegistryKeyEx" [];
        CallWcaFinalize ERROR_INSTALL_FAILURE]
       NULL_HANDLE NULL_HANDLE []).
Proof.
  intros F0. unfold WixRemoveRegistryKeyEx, run.
  unfold bind at 1. unfold WcaInitialize, bind at 1. rewrite emit_eq. unfold ret at 1.
  exits. cbn [status_of].
  unfold at_LExit, WcaFinalize. rewrite SUCCEEDED_FAILED, F0. reflexivity.
Qed.

Lemma failed_initialize_aborts_witness :
  fst (WixRemoveRegistryKeyEx Edge.engine_init_fails) = ERROR_INSTALL_FAILURE
  /\ staged (snd (WixRemoveRegistryKeyEx Edge.engine_init_fails)) = []
  /\ filter is_fetch (trace (snd (WixRemoveRegistryKeyEx Edge.engine_init_fails))) = [].
Proof.
  rewrite (failed_initialize_aborts Edge.engine_init_fails eq_refl).
  split; [reflexivity|]. split; reflexivity.
Defined.

Lemma filter_closes (f : event -> bool) (closes : list event) :
  (forall e, is_close e = true -> f e = false) ->
  Forall (fun e => is_close e = true) closes ->
  filter f closes = [].
Proof.
  intros H Cl. apply filter_none. eapply Forall_impl; [|exact Cl]. exact H.
Qed.

(** X2. When the table exists but the view cannot be opened, the action
    returns [ERROR_INSTALL_FAILURE] and traces that one failure: no record
    is fetched, no column is read, no append call is made and nothing is
    staged. *)
Theorem failed_open_view_aborts (E : Engine) :
  FAILED (engine_initialize E) = false ->
  engine_table_exists E "WixRemoveRegistryKeyEx" = S_OK ->
  FAILED (fst (engine_open_view E vcsRemoveRegistryKeyExQuery)) = true ->
  fst (WixRemoveRegistryKeyEx E) = ERROR_INSTALL_FAILURE
  /\ staged (snd (WixRemoveRegistryKeyEx E)) = []
  /\ filter is_fetch (trace (snd (WixRemoveRegistryKeyEx E))) = []
  /\ filter is_column_read (trace (snd (WixRemoveRegistryKeyEx E))) = []
  /\ filter is_add_temp (trace (snd (WixRemoveRegistryKeyEx E))) = []
  /\ filter is_exit_trace (trace (snd (WixRemoveRegistryKeyEx E)))
     = [CallExitTrace (fst (engine_open_view E vcsRemoveRegistryKeyExQuery))
          "Failed to open view on WixRemoveRegistryKeyEx table" []].
Proof.
  intros F0 T F1.
  assert (R : run E initial_state
              = (LExit (fst (engine_open_view E vcsRemoveRegistryKeyExQuery)),
                 log initial_state
                   [CallWcaInitialize "WixRemoveRegistryKeyEx";
                    CallWcaTableExists "WixRemoveRegistryKeyEx";
                    CallWcaOpenExecuteView vcsRemoveRegistryKeyExQuery;
                    CallExitTrace (fst (engine_open_view E vcsRemoveRegistryKeyExQuery))
                      "Failed to open view on WixRemoveRegistryKeyEx table" []])).
  { unfold run.
    unfold bind at 1. unfold WcaInitialize, bind at 1. rewrite emit_eq. unfold ret at 1.
    passes.
    unfold bind at 1. unfold WcaTableExists, bind at 1. rewrite emit_eq. unfold ret at 1.
    rewrite T. cbn [Z.eqb S_OK negb].
    unfold bind at 1. unfold WcaOpenExecuteView, bind at 1. rewrite emit_eq. unfold ret at 1.
    destruct (engine_open_view E vcsRemoveRegistryKeyExQuery) as [hr hView].
    cbn [fst] in F1 |- *. exits. now rewrite !log_log. }
  unfold WixRemoveRegistryKeyEx. rewrite R. cbn [status_of].
  split; [now apply at_LExit_failed|].
  split; [now rewrite at_LExit_staged|].
  match goal with
  | |- context [at_LExit ?hr ?s2] =>
      destruct (at_LExit_trace hr s2) as (closes & Cl & TL)
  end.
  assert (N : forall f,
             (forall e, is_close e = true -> f e = false) ->
             filter f closes = []).
  { intros f H. now apply filter_closes. }
  rewrite TL, !filter_app.
  rewrite (N is_fetch), (N is_column_read), (N is_add_temp), (N is_exit_trace);
    try (intros [] C; simpl in *; try discriminate; reflexivity).
  repeat split.
Qed.

Lemma failed_open_view_aborts_witness :
  fst (WixRemoveRegistryKeyEx Edge.engine_open_fails) = ERROR_INSTALL_FAILURE
  /\ staged (snd (WixRemoveRegistryKeyEx Edge.engine_open_fails)) = []
  /\ filter is_fetch (trace (snd (WixRemoveRegistryKeyEx Edge.engine_open_fails))) = [].
Proof.
  destruct (failed_open_view_aborts Edge.engine_open_fails eq_refl eq_refl eq_refl)
    as (Failure & Staged & Fetches & _).
  split; [exact Failure | split; [exact Staged | exact Fetches]].
Defined.

(** X3. When every record of the view gets through the body of the loop,
    the result depends only on the status of the fetch that ends the
    loop: [E_NOMOREITEMS] or a status that is not a failure gives
    [ERROR_SUCCESS], any other failed status gives
    [ERROR_INSTALL_FAILURE].  Either way the rows staged by the loop are
    left as they are. *)
Theorem end_of_scan_status (E : Engine) (v : MsiView) (s' : State) :
  scanned_view E = Some v ->
  while_fetch E (view_rows v) scan_start = (Ret tt, s') ->
  fst (WixRemoveRegistryKeyEx E)
  = (if (view_end v =? E_NOMOREITEMS) || negb (FAILED (view_end v))
     then ERROR_SUCCESS else ERROR_INSTALL_FAILURE)
  /\ staged (snd (WixRemoveRegistryKeyEx E)) = staged s'.
Proof.
  intros V W. rewrite (WixRemoveRegistryKeyEx_scanned E v V), at_LExit_staged.
  assert (FL : fetch_loop E v scan_start
               = (ExitOnFailure
                    (if view_end v =? E_NOMOREITEMS then S_OK else view_end v)
                    "Failure occured while processing WixRemoveRegistryKeyEx table." [] ;;
                  ret (if view_end v =? E_NOMOREITEMS then S_OK else view_end v))
                   (log s' [CallWcaFetchRecord])).
  { unfold fetch_loop. step. rewrite W.
    step. unfold WcaFetchRecord. rewrite emit_eq. reflexivity. }
  rewrite FL. unfold bind.
  destruct (view_end v =? E_NOMOREITEMS).
  - rewrite ExitOnFailure_ok by reflexivity. cbn [fst snd status_of ret orb].
    split; [now apply at_LExit_succeeded | reflexivity].
  - cbn [orb]. destruct (FAILED (view_end v)) eqn:F.
    + rewrite ExitOnFailure_fail by assumption. cbn [fst snd status_of negb].
      split; [now apply at_LExit_failed | reflexivity].
    + rewrite ExitOnFailure_ok by assumption. cbn [fst snd status_of ret negb].
      split; [now apply at_LExit_succeeded | reflexivity].
Qed.

Lemma end_of_scan_status_witness :
  fst (WixRemoveRegistryKeyEx (Edge.engine_fetch_fails [Sample.R1]))
  = ERROR_INSTALL_FAILURE
  /\ staged (snd (WixRemoveRegistryKeyEx (Edge.engine_fetch_fails [Sample.R1])))
     = [("RemoveRegistry",
         [AStr (Some "R1"); AInt 2; AStr (Some "SOFTWARE\X"); AStr (Some "-");
          AStr (Some "C1")])].
Proof.
  exact (end_of_scan_status (Edge.engine_fetch_fails [Sample.R1])
           (Edge.broken_view [Sample.R1])
           (snd (while_fetch (Edge.engine_fetch_fails []) [Sample.R1] scan_start))
           eq_refl eq_refl).
Defined.

(** X4. The condition column is optional in content but not in reading:
    when the loop reaches a record whose id reads and whose condition
    read fails, the action traces the failure, closes the open handles and
    finalizes with [ERROR_INSTALL_FAILURE].  No condition is evaluated,
    no other column of the record is read, no later record is fetched,
    and the staged rows are those staged before that record. *)
Theorem unreadable_condition_aborts_pass (E : Engine) (v : MsiView)
    (pre post : list MsiRecord) (r : MsiRecord) (s1 : State) :
  scanned_view E = Some v ->
  view_rows v = pre ++ r :: post ->
  reaches E pre s1 ->
  FAILED (fst (rec_string r rrxqId)) = false ->
  FAILED (fst (rec_string r rrxqCondition)) = true ->
  fst (WixRemoveRegistryKeyEx E) = ERROR_INSTALL_FAILURE
  /\ staged (snd (WixRemoveRegistryKeyEx E)) = staged s1
  /\ exists closes,
       Forall (fun e => is_close e = true) closes
       /\ trace (snd (WixRemoveRegistryKeyEx E))
          = trace s1
            ++ [CallWcaFetchRecord;
                CallWcaGetRecordString rrxqId; CallWcaGetRecordString rrxqCondition;
                CallExitTrace (fst (rec_string r rrxqCondition))
                  "Failed to get WixRemoveRegistryKeyEx condition." []]
            ++ closes
            ++ [CallWcaFinalize ERROR_INSTALL_FAILURE].
Proof.
  intros V Rows Pre Fid Fc.
  pose proof (loop_body_cond_fail E r (log s1 [CallWcaFetchRecord]) Fid Fc) as B.
  rewrite log_log in B.
  rewrite (pass_aborts E v pre post r s1 _ _ V Rows Pre B).
  split; [now apply at_LExit_failed|].
  split; [now rewrite at_LExit_staged|].
  match goal with
  | |- context [at_LExit ?hr ?s2] =>
      destruct (at_LExit_trace hr s2) as (closes & Cl & T);
      rewrite (at_LExit_failed hr s2 Fc) in T
  end.
  exists closes. split; [exact Cl|].
  rewrite T. cbn [trace log app]. rewrite <- !app_assoc. reflexivity.
Qed.

Lemma unreadable_condition_aborts_pass_witness :
  fst (WixRemoveRegistryKeyEx
         (Sample.engine [Sample.R1; Edge.R4_no_condition; Sample.R2]))
  = ERROR_INSTALL_FAILURE
  /\ staged (snd (WixRemoveRegistryKeyEx
                    (Sample.engine [Sample.R1; Edge.R4_no_condition; Sample.R2])))
     = [("RemoveRegistry",
         [AStr (Some "R1"); AInt 2; AStr (Some "SOFTWARE\X"); AStr (Some "-");
          AStr (Some "C1")])].
Proof.
  destruct (unreadable_condition_aborts_pass
              (Sample.engine [Sample.R1; Edge.R4_no_condition; Sample.R2])
              (Sample.view [Sample.R1; Edge.R4_no_condition; Sample.R2])
              [Sample.R1] [Sample.R2] Edge.R4_no_condition
              (snd (while_fetch (Sample.engine []) [Sample.R1] scan_start))
              eq_refl eq_refl eq_refl eq_refl eq_refl)
    as (Failure & Staged & _).
  split; [exact Failure | exact Staged].
Defined.

(* ------------------------------------------------------------------ *)
(** ** What any pass leaves staged *)

(** The body of the loop adds the expected rows of the record when it
    completes and adds nothing when it leaves by [LExit]. *)
Lemma loop_body_staged (E : Engine) (r : MsiRecord) (s : State) :
  match loop_body E r s with
  | (Ret _, s') => staged s' = staged s ++ expected_rows E r
  | (LExit _, s') => staged s' = staged s
  end.
Proof.
  pose proof (loop_body_outcome E r s) as Out.
  destruct (loop_body E r s) as [[[]|hr] s'] eqn:B; [exact Out|].
  destruct (skipped E r) eqn:S.
  - unfold skipped in S.
    apply andb_prop in S as [S C]. apply andb_prop in S as [Fid Fc].
    apply negb_true_iff in Fid, Fc, C.
    rewrite (loop_body_head E r s _ _ _ _ (surjective_pairing _) Fid
               (surjective_pairing _) Fc), C in B. discriminate.
  - destruct (load r) as [x|] eqn:L.
    + assert (C : condition_applies E (rule_condition x) = true).
      { destruct (load_Some _ _ L) as ([H1 F1] & _ & _ & _ & _ & [H6 F6]).
        unfold skipped in S. rewrite F1, F6, H6 in S. simpl in S.
        now apply negb_false_iff in S. }
      destruct (output_row x) as [row|] eqn:O.
      * rewrite (loop_body_row E r x row s L C O) in B.
        destruct (after_append_summary E x row s) as (_ & Ok & Ko).
        rewrite B in Ok, Ko. cbn [fst snd] in Ok, Ko.
        destruct (FAILED (append_status E s row)).
        -- now destruct (Ko eq_refl).
        -- destruct (Ok eq_refl) as [R _]. discriminate.
      * rewrite (loop_body_loaded E r x s L), C, (switch_iMode_other E x _ O) in B.
        discriminate.
    + destruct (loop_body_unreadable E r s (load_None r L) S) as (hr' & es & B' & _).
      rewrite B' in B. now injection B as _ <-.
Qed.

Lemma while_fetch_staged (E : Engine) (rows : list MsiRecord) (s : State) :
  match while_fetch E rows s with
  | (Ret _, s') => staged s' = staged s ++ flat_map (expected_rows E) rows
  | (LExit _, s') =>
      exists k,
        (k < List.length rows)%nat
        /\ staged s' = staged s ++ flat_map (expected_rows E) (firstn k rows)
  end.
Proof.
  revert s. induction rows as [|r rows IH]; intros s.
  - simpl. now rewrite app_nil_r.
  - pose proof (loop_body_staged E r (log s [CallWcaFetchRecord])) as B.
    destruct (loop_body E r (log s [CallWcaFetchRecord])) as [[[]|hr] s'] eqn:Eq.
    + rewrite (while_fetch_cons_Ret E r rows s s' Eq).
      specialize (IH s'). destruct (while_fetch E rows s') as [[[]|hr] s''].
      * rewrite IH, B. cbn [staged log flat_map]. now rewrite app_assoc.
      * destruct IH as (k & Hk & St). exists (S k). split; [simpl; lia|].
        rewrite St, B. cbn [staged log flat_map firstn]. now rewrite app_assoc.
    + rewrite (while_fetch_cons_LExit E r rows s s' hr Eq).
      exists 0%nat. split; [simpl; lia|].
      rewrite B. cbn [staged log firstn flat_map]. now rewrite app_nil_r.
Qed.

Lemma fetch_loop_completed (E : Engine) (v : MsiView) (s s' : State) :
  while_fetch E (view_rows v) s = (Ret tt, s') ->
  fetch_loop E v s
  = (ExitOnFailure (if view_end v =? E_NOMOREITEMS then S_OK else view_end v)
       "Failure occured while processing WixRemoveRegistryKeyEx table." [] ;;
     ret (if view_end v =? E_NOMOREITEMS then S_OK else view_end v))
      (log s' [CallWcaFetchRecord]).
Proof.
  intros W. unfold fetch_loop. step. rewrite W.
  step. unfold WcaFetchRecord. rewrite emit_eq. reflexivity.
Qed.

Lemma fetch_loop_completed_staged (E : Engine) (v : MsiView) (s s' : State) :
  while_fetch E (view_rows v) s = (Ret tt, s') ->
  staged (snd (fetch_loop E v s)) = staged s'.
Proof.
  intros W. rewrite (fetch_loop_completed E v s s' W). unfold bind, ExitOnFailure.
  destruct (FAILED (if view_end v =? E_NOMOREITEMS then S_OK else view_end v));
    reflexivity.
Qed.

Lemma expected_rows_length (E : Engine) (r : MsiRecord) :
  (List.length (expected_rows E r) <= 1)%nat.
Proof.
  unfold expected_rows.
  destruct (skipped E r); [simpl; lia|].
  destruct (load r) as [x|]; [|simpl; lia].
  destruct (output_row x); simpl; lia.
Qed.

Lemma flat_map_expected_length (E : Engine) (rows : list MsiRecord) :
  (List.length (flat_map (expected_rows E) rows) <= List.length rows)%nat.
Proof.
  induction rows as [|r rows IH]; simpl; [lia|].
  rewrite length_app. pose proof (expected_rows_length E r). lia.
Qed.

(** X5. Whatever way a pass over an existing table ends, the rows it
    leaves staged are the expected rows, in table order, of the first [k]
    records for some [k]: those of the whole table when the action
    returns [ERROR_SUCCESS], those of the records before the one that
    aborted otherwise.  Nothing staged is ever removed or reordered. *)
Theorem staged_rows_are_a_prefix (E : Engine) (v : MsiView) :
  scanned_view E = Some v ->
  exists k,
    (k <= List.length (view_rows v))%nat
    /\ staged (snd (WixRemoveRegistryKeyEx E))
       = flat_map (expected_rows E) (firstn k (view_rows v))
    /\ (fst (WixRemoveRegistryKeyEx E) = ERROR_SUCCESS ->
        k = List.length (view_rows v)).
Proof.
  intros V. rewrite (WixRemoveRegistryKeyEx_scanned E v V), at_LExit_staged.
  pose proof (while_fetch_staged E (view_rows v) scan_start) as St.
  pose proof (while_fetch_outcome E (view_rows v) scan_start) as Out.
  destruct (while_fetch E (view_rows v) scan_start) as [[[]|hr] s'] eqn:W.
  - exists (List.length (view_rows v)). rewrite firstn_all.
    split; [lia|]. split; [|reflexivity].
    rewrite (fetch_loop_completed_staged E v _ _ W). exact St.
  - rewrite (fetch_loop_LExit E v _ _ _ W). cbn [fst snd status_of].
    destruct St as (k & Hk & St). exists k.
    split; [lia|]. split; [exact St|].
    intros Er. rewrite (at_LExit_failed hr s' Out) in Er. discriminate.
Qed.

Lemma staged_rows_are_a_prefix_witness :
  exists k,
    (k <= 3)%nat
    /\ staged (snd (WixRemoveRegistryKeyEx
                      (Sample.engine [Sample.R1; Sample.R3_no_key; Sample.R2])))
       = flat_map (expected_rows (Sample.engine [Sample.R1; Sample.R3_no_key; Sample.R2]))
           (firstn k [Sample.R1; Sample.R3_no_key; Sample.R2])
    /\ (fst (WixRemoveRegistryKeyEx
               (Sample.engine [Sample.R1; Sample.R3_no_key; Sample.R2]))
        = ERROR_SUCCESS -> k = 3%nat).
Proof.
  exact (staged_rows_are_a_prefix
           (Sample.engine [Sample.R1; Sample.R3_no_key; Sample.R2])
           (Sample.view [Sample.R1; Sample.R3_no_key; Sample.R2]) eq_refl).
Defined.

(** X6. A pass never stages more rows than the table has records: each
    record contributes at most one row. *)
Theorem at_most_one_row_per_record (E : Engine) (v : MsiView) :
  scanned_view E = Some v ->
  (List.length (staged (snd (WixRemoveRegistryKeyEx E)))
   <= List.length (view_rows v))%nat.
Proof.
  intros V. rewrite (WixRemoveRegistryKeyEx_scanned E v V), at_LExit_staged.
  assert (P : exists k,
             (k <= List.length (view_rows v))%nat
             /\ staged (snd (fetch_loop E v scan_start))
                = flat_map (expected_rows E) (firstn k (view_rows v))).
  { pose proof (while_fetch_staged E (view_rows v) scan_start) as St.
    destruct (while_fetch E (view_rows v) scan_start) as [[[]|hr] s'] eqn:W.
    - exists (List.length (view_rows v)). rewrite firstn_all. split; [lia|].
      rewrite (fetch_loop_completed_staged E v _ _ W). exact St.
    - rewrite (fetch_loop_LExit E v _ _ _ W).
      destruct St as (k & Hk & St). exists k. split; [lia | exact St]. }
  destruct P as (k & Hk & ->).
  pose proof (flat_map_expected_length E (firstn k (view_rows v))) as L.
  rewrite length_firstn in L. lia.
Qed.

Lemma at_most_one_row_per_record_witness :
  (List.length
     (staged (snd (WixRemoveRegistryKeyEx
                     (Sample.engine [Sample.R1; Sample.R2_false; Sample.R5_mode3;
                                     Sample.R2]))))
   <= 4)%nat.
Proof.
  exact (at_most_one_row_per_record
           (Sample.engine [Sample.R1; Sample.R2_false; Sample.R5_mode3; Sample.R2])
           (Sample.view [Sample.R1; Sample.R2_false; Sample.R5_mode3; Sample.R2])
           eq_refl).
Defined.

(* ------------------------------------------------------------------ *)
(** ** Failure traces *)

Lemma traced_ret {A} (Q : A -> Prop) (a : A) : Q a -> traced_exit Q (ret a).
Proof. intros H s. exists []. simpl. rewrite app_nil_r. auto. Qed.

Lemma traced_emit (e : event) :
  is_exit_trace e = false -> traced_exit (fun _ => True) (emit e).
Proof. intros H s. exists [e]. simpl. rewrite H. auto. Qed.

Lemma traced_bind {A B} (Q1 : A -> Prop) (Q2 : B -> Prop) (m : M A) (k : A -> M B) :
  traced_exit Q1 m ->
  (forall a, Q1 a -> traced_exit Q2 (k a)) ->
  traced_exit Q2 (bind m k).
Proof.
  intros Hm Hk s. destruct (Hm s) as [es [T C]]. unfold bind.
  destruct (m s) as [[a|hr] s']; simpl in *.
  - destruct C as [Qa N]. destruct (Hk a Qa s') as [es' [T' C']].
    exists (es ++ es'). rewrite T', T, app_assoc. split; [reflexivity|].
    rewrite filter_app, N. exact C'.
  - exists es. auto.
Qed.

Lemma traced_weaken {A} (Q Q' : A -> Prop) (m : M A) :
  (forall a, Q a -> Q' a) -> traced_exit Q m -> traced_exit Q' m.
Proof.
  intros W H s. destruct (H s) as [es [T C]]. exists es. split; [exact T|].
  destruct (fst (m s)); [|exact C]. destruct C. auto.
Qed.

Lemma traced_ExitOnFailure (hr : HRESULT) (fmt : string) (args : list arg) :
  traced_exit (fun _ => FAILED hr = false) (ExitOnFailure hr fmt args).
Proof.
  intros s. unfold ExitOnFailure. destruct (FAILED hr) eqn:F.
  - exists [CallExitTrace hr fmt args]. simpl. split; [reflexivity|].
    split; [exact F|]. now exists fmt, args.
  - exists []. simpl. rewrite app_nil_r. auto.
Qed.

Lemma traced_call {A} (e : event) (a : A) :
  is_exit_trace e = false -> traced_exit (fun b => b = a) (emit e ;; ret a).
Proof. intros H s. exists [e]. simpl. rewrite H. auto. Qed.

Lemma traced_WcaAddTempRecord (E : Engine) (table : string) (u n : Z)
    (args : list arg) :
  traced_exit (fun _ => True) (WcaAddTempRecord E table u n args).
Proof.
  intros s. exists [CallWcaAddTempRecord table u n args].
  unfold WcaAddTempRecord, bind. simpl.
  destruct (engine_add_temp E (staged s) (hTable s) (hColumns s) table n args)
    as [hr [hT hC]]. simpl. auto.
Qed.

Ltac traced_leaf :=
  first
    [ apply traced_ret; exact I
    | apply traced_emit; reflexivity
    | apply traced_WcaAddTempRecord
    | apply traced_ExitOnFailure
    | apply traced_call; reflexivity ].

Ltac traced_auto :=
  repeat first
    [ traced_leaf
    | eapply traced_weaken; [|traced_leaf]; intros; exact I
    | eapply traced_bind; [traced_leaf | intros ? _]
    | match goal with
      | |- traced_exit _ (match ?p with pair _ _ => _ end) => destruct p
      | |- traced_exit _ (if ?b then _ else _) => destruct b
      end ].

Lemma traced_check_condition (E : Engine) (sczId sczCondition : LPWSTR) :
  traced_exit (fun _ => True) (check_condition E sczId sczCondition).
Proof.
  unfold check_condition, MsiEvaluateConditionW, WcaLog. traced_auto.
Qed.

Lemma traced_translate (E : Engine) (r : MsiRecord) (sczId : LPWSTR) :
  traced_exit (fun _ => True) (translate E r sczId).
Proof.
  unfold translate, switch_iMode, WcaGetRecordString, WcaGetRecordInteger, WcaLog.
  traced_auto.
Qed.

Lemma traced_loop_body (E : Engine) (r : MsiRecord) :
  traced_exit (fun _ => True) (loop_body E r).
Proof.
  unfold loop_body, WcaGetRecordString.
  eapply traced_bind; [traced_leaf | intros [hr sczId] _].
  eapply traced_bind; [traced_leaf | intros ? _].
  eapply traced_bind; [traced_leaf | intros [hr' sczCondition] _].
  eapply traced_bind; [traced_leaf | intros ? _].
  eapply traced_bind; [apply traced_check_condition | intros go _].
  destruct go; [apply traced_translate | traced_leaf].
Qed.

Lemma traced_while_fetch (E : Engine) (rows : list MsiRecord) :
  traced_exit (fun _ => True) (while_fetch E rows).
Proof.
  induction rows as [|r rows IH]; simpl.
  - traced_leaf.
  - unfold WcaFetchRecord.
    eapply traced_bind; [traced_leaf | intros ? _].
    eapply traced_bind; [apply traced_loop_body | intros ? _]. exact IH.
Qed.

Lemma traced_fetch_loop (E : Engine) (v : MsiView) :
  traced_exit (fun hr => FAILED hr = false) (fetch_loop E v).
Proof.
  unfold fetch_loop, WcaFetchRecord.
  eapply traced_bind; [apply traced_while_fetch | intros ? _].
  eapply traced_bind; [traced_leaf | intros ? _].
  eapply traced_bind; [apply traced_ExitOnFailure | intros ? F].
  now apply traced_ret.
Qed.

Lemma traced_run (E : Engine) : traced_exit (fun hr => FAILED hr = false) (run E).
Proof.
  unfold run, WcaInitialize, WcaTableExists, WcaOpenExecuteView, WcaLog.
  eapply traced_bind; [apply traced_call; reflexivity | intros hr ->].
  eapply traced_bind; [apply traced_ExitOnFailure | intros ? F].
  eapply traced_bind; [apply traced_call; reflexivity | intros ex _].
  destruct (negb (ex =? S_OK)).
  - eapply traced_bind; [traced_leaf | intros ? _]. now apply traced_ret.
  - eapply traced_bind; [apply traced_call; reflexivity | intros [hr' hView] _].
    eapply traced_bind; [apply traced_ExitOnFailure | intros ? _].
    apply traced_fetch_loop.
Qed.

Lemma filter_exit_trace_closes (closes : list event) :
  Forall (fun e => is_close e = true) closes -> filter is_exit_trace closes = [].
Proof.
  intros H. apply filter_none. eapply Forall_impl; [|exact H].
  intros [] C; simpl in *; try discriminate; reflexivity.
Qed.

(** X7. The action returns [ERROR_SUCCESS] exactly when its trace holds
    no failure message; when it returns [ERROR_INSTALL_FAILURE] the trace
    holds exactly one, for a failed status: the first failure ends the
    pass. *)
Theorem failure_is_traced_exactly_once (E : Engine) :
  (fst (WixRemoveRegistryKeyEx E) = ERROR_SUCCESS
   /\ filter is_exit_trace (trace (snd (WixRemoveRegistryKeyEx E))) = [])
  \/ (fst (WixRemoveRegistryKeyEx E) = ERROR_INSTALL_FAILURE
      /\ exists hr fmt args,
           FAILED hr = true
           /\ filter is_exit_trace (trace (snd (WixRemoveRegistryKeyEx E)))
              = [CallExitTrace hr fmt args]).
Proof.
  unfold WixRemoveRegistryKeyEx.
  destruct (traced_run E initial_state) as [es [T C]].
  destruct (run E initial_state) as [[hr|hr] s]; cbn [fst snd status_of] in *;
    destruct (at_LExit_trace hr s) as (closes & Cl & TL);
    rewrite TL, T; cbn [trace initial_state app];
    rewrite !filter_app, (filter_exit_trace_closes closes Cl); cbn [filter is_exit_trace app];
    rewrite app_nil_r.
  - left. destruct C as [F N]. split; [now apply at_LExit_succeeded | exact N].
  - right. destruct C as [F (fmt & args & N)].
    split; [now apply at_LExit_failed|]. now exists hr, fmt, args.
Qed.

(* ------------------------------------------------------------------ *)
(** ** Handles *)

Lemma frames_ret {A} (a : A) : frames (ret a).
Proof. intros s. exists []. simpl. rewrite app_nil_r. auto. Qed.

Lemma frames_goto {A} (hr : HRESULT) : frames (@goto_LExit A hr).
Proof. intros s. exists []. simpl. rewrite app_nil_r. auto. Qed.

Lemma frames_emit (e : event) : is_close e = false -> frames (emit e).
Proof. intros H s. exists [e]. simpl. auto. Qed.

Lemma frames_bind {A B} (m : M A) (k : A -> M B) :
  frames m -> (forall a, frames (k a)) -> frames (bind m k).
Proof.
  intros Hm Hk s. destruct (Hm s) as (es & T & Cl & Fr). unfold bind.
  destruct (m s) as [[a|hr] s']; simpl in *.
  - destruct (Hk a s') as (es' & T' & Cl' & Fr'). exists (es ++ es').
    rewrite T', T, app_assoc. split; [reflexivity|].
    split; [now apply Forall_app|].
    rewrite filter_app. intros N. apply app_eq_nil in N as [N N'].
    destruct (Fr N) as (H1 & H2 & H3), (Fr' N') as (H1' & H2' & H3').
    repeat split; congruence.
  - exists es. auto.
Qed.

Lemma frames_WcaAddTempRecord (E : Engine) (table : string) (u n : Z)
    (args : list arg) :
  frames (WcaAddTempRecord E table u n args).
Proof.
  intros s. exists [CallWcaAddTempRecord table u n args].
  unfold WcaAddTempRecord, bind. simpl.
  destruct (engine_add_temp E (staged s) (hTable s) (hColumns s) table n args)
    as [hr [hT hC]]. simpl.
  split; [reflexivity|]. split; [repeat constructor | discriminate].
Qed.

Ltac frames_auto :=
  repeat first
    [ apply frames_ret
    | apply frames_goto
    | apply frames_emit; reflexivity
    | apply frames_WcaAddTempRecord
    | apply frames_bind; [|intros]
    | match goal with
      | |- frames (match ?p with pair _ _ => _ end) => destruct p
      | |- frames (if ?b then _ else _) => destruct b
      end ].

Lemma frames_loop_body (E : Engine) (r : MsiRecord) : frames (loop_body E r).
Proof.
  unfold loop_body, check_condition, translate, switch_iMode, ExitOnFailure,
    WcaGetRecordString, WcaGetRecordInteger, MsiEvaluateConditionW, WcaLog.
  frames_auto.
Qed.

Lemma frames_while_fetch (E : Engine) (rows : list MsiRecord) :
  frames (while_fetch E rows).
Proof.
  induction rows as [|r rows IH]; simpl.
  - apply frames_ret.
  - unfold WcaFetchRecord. apply frames_bind; [apply frames_emit; reflexivity|].
    intros _. apply frames_bind; [apply frames_loop_body | intros _; exact IH].
Qed.

Lemma frames_run (E : Engine) : frames (run E).
Proof.
  unfold run, fetch_loop, ExitOnFailure, WcaInitialize, WcaTableExists,
    WcaOpenExecuteView, WcaFetchRecord, WcaLog.
  apply frames_bind; [frames_auto|]. intros hr.
  apply frames_bind; [frames_auto|]. intros _.
  apply frames_bind; [frames_auto|]. intros ex.
  destruct (negb (ex =? S_OK)); [frames_auto|].
  apply frames_bind; [frames_auto|]. intros [hr' hView].
  apply frames_bind; [frames_auto|]. intros _.
  apply frames_bind; [apply frames_while_fetch|]. intros _.
  frames_auto.
Qed.

Lemma at_LExit_handles (hr : HRESULT) (s : State) :
  hTable (snd (at_LExit hr s)) = hTable s
  /\ hColumns (snd (at_LExit hr s)) = hColumns s.
Proof.
  unfold at_LExit, WcaFinalize, MsiCloseHandle.
  destruct (hColumns s =? NULL_HANDLE); simpl;
    destruct (hTable s =? NULL_HANDLE); split; reflexivity.
Qed.

(** X8. A pass that makes no staging-table append call returns with
    [hTable] and [hColumns] still NULL and with nothing staged: the two
    staging handles are acquired only through [WcaAddTempRecord], so the
    cleanup of lines 97-105 finds neither of them to close. *)
Theorem no_append_no_staging_handle (E : Engine) :
  filter is_add_temp (trace (snd (WixRemoveRegistryKeyEx E))) = [] ->
  hTable (snd (WixRemoveRegistryKeyEx E)) = NULL_HANDLE
  /\ hColumns (snd (WixRemoveRegistryKeyEx E)) = NULL_HANDLE
  /\ staged (snd (WixRemoveRegistryKeyEx E)) = [].
Proof.
  unfold WixRemoveRegistryKeyEx.
  destruct (frames_run E initial_state) as (es & T & Cl & Fr).
  destruct (run E initial_state) as [r s]. cbn [fst snd] in *.
  rewrite at_LExit_staged.
  destruct (at_LExit_handles (status_of r) s) as [-> ->].
  destruct (at_LExit_trace (status_of r) s) as (closes & _ & TL).
  intros N. rewrite TL, T in N. cbn [trace initial_state app] in N.
  rewrite filter_app in N. apply app_eq_nil in N as [N _].
  exact (Fr N).
Qed.

Lemma no_append_no_staging_handle_witness :
  hTable (snd (WixRemoveRegistryKeyEx
                 (Sample.engine [Sample.R2_false; Sample.R5_mode3]))) = NULL_HANDLE
  /\ hColumns (snd (WixRemoveRegistryKeyEx
                      (Sample.engine [Sample.R2_false; Sample.R5_mode3]))) = NULL_HANDLE
  /\ staged (snd (WixRemoveRegistryKeyEx
                    (Sample.engine [Sample.R2_false; Sample.R5_mode3]))) = [].
Proof.
  exact (no_append_no_staging_handle
           (Sample.engine [Sample.R2_false; Sample.R5_mode3]) eq_refl).
Defined.

(** The handles a record's append call is made with are those of the
    state the body starts in, and the body ends with the handles the
    engine gives back, whether or not the append succeeded. *)
Lemma after_append_handles (E : Engine) (x : Rule) (row : staged_row) (s : State)
    (hr : HRESULT) (hT hC : MSIHANDLE) :
  engine_add_temp E (staged s) (hTable s) (hColumns s) (fst row)
    (Z.of_nat (List.length (snd row))) (snd row) = (hr, (hT, hC)) ->
  FAILED hr = false ->
  exists es,
    after_append E x row (log s (read_events E x))
    = (Ret tt, mkState (trace s ++ es) hT hC (staged s ++ [row])).
Proof.
  intros A F. unfold after_append. cbn [staged hTable hColumns trace log].
  rewrite A, F, <- app_assoc. eexists. reflexivity.
Qed.

(** X9. The appends to the two tables go through one pair of handles.
    When a mode-1 rule is followed by a mode-2 rule (both read in full,
    both with a condition that lets them through) and the engine accepts
    the [RemoveRegistry] append, the [Registry] append is made with the
    handles that first append returned, and the loop ends with the
    handles the second one returns. *)
Theorem handles_shared_between_tables (E : Engine) (r1 r2 : MsiRecord)
    (x1 x2 : Rule) (s : State) (hr1 : HRESULT) (hT hC : MSIHANDLE) :
  load r1 = Some x1 ->
  condition_applies E (rule_condition x1) = true ->
  rule_mode x1 = 1 ->
  load r2 = Some x2 ->
  condition_applies E (rule_condition x2) = true ->
  rule_mode x2 = 2 ->
  engine_add_temp E (staged s) (hTable s) (hColumns s) "RemoveRegistry" 5
    (snd (immediate_removal_row x1)) = (hr1, (hT, hC)) ->
  FAILED hr1 = false ->
  staged (snd (while_fetch E [r1; r2] s))
  = staged s
    ++ immediate_removal_row x1
       :: (if FAILED (fst (engine_add_temp E (staged s ++ [immediate_removal_row x1])
                             hT hC "Registry" 6 (snd (scheduled_removal_row x2))))
           then [] else [scheduled_removal_row x2])
  /\ (hTable (snd (while_fetch E [r1; r2] s)),
      hColumns (snd (while_fetch E [r1; r2] s)))
     = snd (engine_add_temp E (staged s ++ [immediate_removal_row x1])
              hT hC "Registry" 6 (snd (scheduled_removal_row x2))).
Proof.
  intros L1 C1 M1 L2 C2 M2 A F.
  assert (O1 : output_row x1 = Some (immediate_removal_row x1)).
  { unfold output_row. now rewrite M1. }
  assert (O2 : output_row x2 = Some (scheduled_removal_row x2)).
  { unfold output_row. rewrite M2. reflexivity. }
  destruct (after_append_handles E x1 (immediate_removal_row x1)
              (log s [CallWcaFetchRecord]) hr1 hT hC A F) as [es B1].
  rewrite <- (loop_body_row E r1 x1 _ _ L1 C1 O1) in B1.
  rewrite (while_fetch_cons_Ret E r1 [r2] s _ B1).
  cbn [staged hTable hColumns log trace] in *.
  destruct (engine_add_temp E (staged s ++ [immediate_removal_row x1]) hT hC
              "Registry" 6 (snd (scheduled_removal_row x2)))
    as [hr2 [hT2 hC2]] eqn:A2.
  match goal with
  | |- context [while_fetch E [r2] ?s1] =>
      pose proof (loop_body_row E r2 x2 _ (log s1 [CallWcaFetchRecord]) L2 C2 O2) as B2
  end.
  unfold after_append in B2. cbn [staged hTable hColumns log trace fst snd] in B2.
  change (Z.of_nat (List.length (snd (scheduled_removal_row x2)))) with 6 in B2.
  change (fst (scheduled_removal_row x2)) with "Registry" in B2.
  rewrite A2 in B2. cbn [fst snd].
  destruct (FAILED hr2).
  - rewrite (while_fetch_cons_LExit E r2 [] _ _ _ B2). cbn [snd staged hTable hColumns].
    split; reflexivity.
  - rewrite (while_fetch_cons_Ret E r2 [] _ _ B2). cbn [while_fetch ret snd staged hTable hColumns].
    split; [now rewrite <- app_assoc | reflexivity].
Qed.

Lemma handles_shared_between_tables_witness :
  staged (snd (while_fetch (Sample.engine []) [Sample.R1; Sample.R2] initial_state))
  = [("RemoveRegistry",
      [AStr (Some "R1"); AInt 2; AStr (Some "SOFTWARE\X"); AStr (Some "-");
       AStr (Some "C1")]);
     ("Registry",
      [AStr (Some "R2"); AInt 0; AStr (Some "SOFTWARE\Y"); AStr (Some "-");
       AStr None; AStr (Some "C2")])]
  /\ (hTable (snd (while_fetch (Sample.engine []) [Sample.R1; Sample.R2] initial_state)),
      hColumns (snd (while_fetch (Sample.engine []) [Sample.R1; Sample.R2] initial_state)))
     = (7, 8).
Proof.
  exact (handles_shared_between_tables (Sample.engine []) Sample.R1 Sample.R2
           (mkRule (Some "R1") (Some "C1") 2 (Some "SOFTWARE\X") 1 (Some ""))
           (mkRule (Some "R2") (Some "C2") 0 (Some "SOFTWARE\Y") 2
              (Some "VersionNT >= 600"))
           initial_state S_OK 7 8
           eq_refl eq_refl eq_refl eq_refl eq_refl eq_refl eq_refl eq_refl).
Defined.

(* ------------------------------------------------------------------ *)
(** ** Evaluations and fetches *)

Lemma filter_evaluate_head_events (E : Engine) (sczId sczCondition : LPWSTR) :
  filter is_evaluate (head_events E sczId sczCondition)
  = if nonempty_str sczCondition then [CallMsiEvaluateConditionW sczCondition]
    else [].
Proof.
  unfold head_events, condition_events.
  now destruct (nonempty_str sczCondition).
Qed.

(** X10. For any record, the condition is evaluated once when the id and
    the condition both read and the condition is not empty, and not at
    all otherwise: never for an empty or unreadable condition, never
    twice. *)
Theorem condition_evaluated_at_most_once (E : Engine) (r : MsiRecord) (s : State) :
  filter is_evaluate (events_since s (snd (loop_body E r s)))
  = if negb (FAILED (fst (rec_string r rrxqId)))
       && negb (FAILED (fst (rec_string r rrxqCondition)))
       && nonempty_str (snd (rec_string r rrxqCondition))
    then [CallMsiEvaluateConditionW (snd (rec_string r rrxqCondition))]
    else [].
Proof.
  destruct (FAILED (fst (rec_string r rrxqId))) eqn:Fid.
  { rewrite (loop_body_id_fail E r s Fid). cbn [snd]. now rewrite events_since_log. }
  destruct (FAILED (fst (rec_string r rrxqCondition))) eqn:Fc.
  { rewrite (loop_body_cond_fail E r s Fid Fc). cbn [snd]. now rewrite events_since_log. }
  rewrite (loop_body_head E r s _ _ _ _ (surjective_pairing _) Fid
             (surjective_pairing _) Fc).
  cbn [negb andb].
  destruct (condition_applies E (snd (rec_string r rrxqCondition))).
  - destruct (translate_no_evaluate E r (snd (rec_string r rrxqId))
                (log s (head_events E (snd (rec_string r rrxqId))
                          (snd (rec_string r rrxqCondition))))) as [es [T F]].
    erewrite events_since_app by (rewrite T; cbn [trace log]; rewrite <- app_assoc; reflexivity).
    rewrite filter_app, (filter_none _ _ F), app_nil_r.
    apply filter_evaluate_head_events.
  - cbn [snd]. rewrite events_since_log. apply filter_evaluate_head_events.
Qed.

Lemma loop_body_no_fetch (E : Engine) (r : MsiRecord) :
  emits (fun e => is_fetch e = false) (loop_body E r).
Proof.
  unfold loop_body, check_condition, translate, switch_iMode,
    WcaGetRecordString, WcaGetRecordInteger, MsiEvaluateConditionW, WcaLog.
  emits_auto.
Qed.

Lemma while_fetch_fetches (E : Engine) (rows : list MsiRecord) (s : State) :
  exists es,
    trace (snd (while_fetch E rows s)) = trace s ++ es
    /\ (List.length (filter is_fetch es) <= List.length rows)%nat
    /\ (fst (while_fetch E rows s) = Ret tt ->
        List.length (filter is_fetch es) = List.length rows).
Proof.
  revert s. induction rows as [|r rows IH]; intros s.
  - exists []. simpl. rewrite app_nil_r. auto.
  - destruct (loop_body_no_fetch E r (log s [CallWcaFetchRecord])) as [es1 [T1 F1]].
    destruct (loop_body E r (log s [CallWcaFetchRecord])) as [[[]|hr] s'] eqn:B;
      cbn [snd] in T1.
    + rewrite (while_fetch_cons_Ret E r rows s s' B).
      destruct (IH s') as (es2 & T2 & Le & Eq).
      exists (CallWcaFetchRecord :: es1 ++ es2).
      rewrite T2, T1. cbn [trace log]. rewrite <- !app_assoc.
      split; [reflexivity|].
      cbn [filter is_fetch List.length]. rewrite filter_app, (filter_none _ _ F1).
      cbn [app]. split; [lia | intros R; rewrite (Eq R); reflexivity].
    + rewrite (while_fetch_cons_LExit E r rows s s' hr B). cbn [fst snd].
      exists (CallWcaFetchRecord :: es1).
      rewrite T1. cbn [trace log]. rewrite <- !app_assoc.
      split; [reflexivity|].
      cbn [filter is_fetch List.length]. rewrite (filter_none _ _ F1).
      cbn [List.length]. split; [lia | discriminate].
Qed.

Lemma filter_fetch_closes (closes : list event) :
  Forall (fun e => is_close e = true) closes -> filter is_fetch closes = [].
Proof.
  intros H. apply filter_none. eapply Forall_impl; [|exact H].
  intros [] C; simpl in *; try discriminate; reflexivity.
Qed.

Lemma fetch_loop_completed_trace (E : Engine) (v : MsiView) (s s' : State) :
  while_fetch E (view_rows v) s = (Ret tt, s') ->
  exists es0,
    trace (snd (fetch_loop E v s)) = trace s' ++ CallWcaFetchRecord :: es0
    /\ filter is_fetch es0 = [].
Proof.
  intros W. rewrite (fetch_loop_completed E v s s' W). unfold bind.
  destruct (FAILED (if view_end v =? E_NOMOREITEMS then S_OK else view_end v)) eqn:F.
  - rewrite ExitOnFailure_fail by assumption. eexists. cbn [snd trace log].
    rewrite <- app_assoc. split; reflexivity.
  - rewrite ExitOnFailure_ok by assumption. exists []. cbn [snd ret trace log].
    split; reflexivity.
Qed.

(** X11. Records are fetched one at a time and none twice: a pass over
    an existing table calls [WcaFetchRecord] at most once per record plus
    once for the end of the data, and exactly that many times when it
    returns [ERROR_SUCCESS]. *)
Theorem one_fetch_per_record (E : Engine) (v : MsiView) :
  scanned_view E = Some v ->
  (List.length (filter is_fetch (trace (snd (WixRemoveRegistryKeyEx E))))
   <= List.length (view_rows v) + 1)%nat
  /\ (fst (WixRemoveRegistryKeyEx E) = ERROR_SUCCESS ->
      List.length (filter is_fetch (trace (snd (WixRemoveRegistryKeyEx E))))
      = (List.length (view_rows v) + 1)%nat).
Proof.
  intros V. rewrite (WixRemoveRegistryKeyEx_scanned E v V).
  destruct (while_fetch_fetches E (view_rows v) scan_start) as (es & T & Le & Eq).
  pose proof (while_fetch_outcome E (view_rows v) scan_start) as Out.
  destruct (at_LExit_trace (status_of (fst (fetch_loop E v scan_start)))
              (snd (fetch_loop E v scan_start))) as (closes & Cl & TL).
  rewrite TL. clear TL.
  destruct (while_fetch E (view_rows v) scan_start) as [[[]|hr] s'] eqn:W;
    cbn [fst snd] in T, Eq.
  - destruct (fetch_loop_completed_trace E v _ _ W) as (es0 & T0 & N0).
    rewrite T0, T, !filter_app, (filter_fetch_closes closes Cl).
    cbn [trace scan_start log initial_state app filter is_fetch].
    rewrite N0, !length_app. cbn [List.length].
    rewrite (Eq eq_refl). split; intros; lia.
  - rewrite (fetch_loop_LExit E v _ _ _ W). cbn [fst snd status_of].
    rewrite T, !filter_app, (filter_fetch_closes closes Cl).
    cbn [trace scan_start log initial_state app filter is_fetch].
    rewrite app_nil_r.
    split; [lia|]. intros Er. rewrite (at_LExit_failed hr s' Out) in Er. discriminate.
Qed.

Lemma one_fetch_per_record_witness :
  List.length
    (filter is_fetch
       (trace (snd (WixRemoveRegistryKeyEx
                      (Sample.engine [Sample.R1; Sample.R2_false; Sample.R2])))))
  = 4%nat.
Proof.
  exact (proj2 (one_fetch_per_record
                  (Sample.engine [Sample.R1; Sample.R2_false; Sample.R2])
                  (Sample.view [Sample.R1; Sample.R2_false; Sample.R2]) eq_refl)
           eq_refl).
Defined.

(* ------------------------------------------------------------------ *)
(** ** The translator within the pass *)

Lemma trace_extends_while_fetch (E : Engine) (rows : list MsiRecord) (s : State) :
  exists es, trace (snd (while_fetch E rows s)) = trace s ++ es.
Proof. destruct (frames_while_fetch E rows s) as (es & T & _). now exists es. Qed.

(** Once the loop has got through the body of a record, the trace of the
    whole action starts with the trace as it was after that body. *)
Lemma pass_trace_after_row (E : Engine) (v : MsiView) (pre post : list MsiRecord)
    (r : MsiRecord) (s1 : State) :
  scanned_view E = Some v ->
  view_rows v = pre ++ r :: post ->
  reaches E pre s1 ->
  exists tail,
    trace (snd (WixRemoveRegistryKeyEx E))
    = trace (snd (loop_body E r (log s1 [CallWcaFetchRecord]))) ++ tail.
Proof.
  intros V Rows Pre.
  destruct (loop_body E r (log s1 [CallWcaFetchRecord])) as [[[]|hr] s2] eqn:B;
    cbn [snd].
  - rewrite (WixRemoveRegistryKeyEx_scanned E v V).
    destruct (at_LExit_trace (status_of (fst (fetch_loop E v scan_start)))
                (snd (fetch_loop E v scan_start))) as (closes & _ & TL).
    rewrite TL. clear TL.
    assert (W : while_fetch E (view_rows v) scan_start = while_fetch E post s2).
    { rewrite Rows, (while_fetch_app E pre _ _ _ Pre).
      now apply while_fetch_cons_Ret. }
    destruct (trace_extends_while_fetch E post s2) as [es T].
    destruct (while_fetch E post s2) as [[[]|hr] s3] eqn:W3; cbn [snd] in T.
    + destruct (fetch_loop_completed_trace E v _ _ W) as (es0 & T0 & _).
      rewrite T0, T, <- !app_assoc. eexists. reflexivity.
    + rewrite (fetch_loop_LExit E v _ _ _ W). cbn [snd].
      rewrite T, <- !app_assoc. eexists. reflexivity.
  - rewrite (pass_aborts E v pre post r s1 s2 hr V Rows Pre B).
    destruct (at_LExit_trace hr s2) as (closes & _ & TL).
    rewrite TL. eexists. reflexivity.
Qed.

(** When the body completes on a record, the rows the action leaves
    staged are those staged after that body, followed by the expected
    rows of some of the records after it. *)
Lemma pass_staged_after_row (E : Engine) (v : MsiView) (pre post : list MsiRecord)
    (r : MsiRecord) (s1 s2 : State) :
  scanned_view E = Some v ->
  view_rows v = pre ++ r :: post ->
  reaches E pre s1 ->
  loop_body E r (log s1 [CallWcaFetchRecord]) = (Ret tt, s2) ->
  exists k,
    (k <= List.length post)%nat
    /\ staged (snd (WixRemoveRegistryKeyEx E))
       = staged s2 ++ flat_map (expected_rows E) (firstn k post).
Proof.
  intros V Rows Pre B.
  rewrite (WixRemoveRegistryKeyEx_scanned E v V), at_LExit_staged.
  assert (W : while_fetch E (view_rows v) scan_start = while_fetch E post s2).
  { rewrite Rows, (while_fetch_app E pre _ _ _ Pre).
    now apply while_fetch_cons_Ret. }
  pose proof (while_fetch_staged E post s2) as St.
  destruct (while_fetch E post s2) as [[[]|hr] s3] eqn:W3.
  - exists (List.length post). rewrite firstn_all. split; [lia|].
    now rewrite (fetch_loop_completed_staged E v _ _ W).
  - rewrite (fetch_loop_LExit E v _ _ _ W). cbn [snd].
    destruct St as (k & Hk & St). exists k. split; [lia | exact St].
Qed.

Lemma In_events_since (s s' : State) (e : event) :
  In e (events_since s s') -> In e (trace s').
Proof.
  unfold events_since. intros H.
  rewrite <- (firstn_skipn (List.length (trace s)) (trace s')).
  apply in_or_app. now right.
Qed.

(** A rule with an output row, met by the loop of a pass. *)
Lemma row_appended_in_pass (E : Engine) (v : MsiView) (pre post : list MsiRecord)
    (r : MsiRecord) (x : Rule) (row : staged_row) (s1 : State) :
  scanned_view E = Some v ->
  view_rows v = pre ++ r :: post ->
  reaches E pre s1 ->
  load r = Some x ->
  condition_applies E (rule_condition x) = true ->
  output_row x = Some row ->
  filter is_add_temp
    (events_since (log s1 [CallWcaFetchRecord])
       (snd (loop_body E r (log s1 [CallWcaFetchRecord]))))
  = [add_call row]
  /\ In (add_call row) (trace (snd (WixRemoveRegistryKeyEx E)))
  /\ (FAILED (append_status E s1 row) = false ->
      while_fetch E (r :: post) s1
      = while_fetch E post (snd (loop_body E r (log s1 [CallWcaFetchRecord])))
      /\ staged (snd (loop_body E r (log s1 [CallWcaFetchRecord])))
         = staged s1 ++ [row]
      /\ exists k,
           (k <= List.length post)%nat
           /\ staged (snd (WixRemoveRegistryKeyEx E))
              = staged s1 ++ row :: flat_map (expected_rows E) (firstn k post)).
Proof.
  intros V Rows Pre L C O.
  assert (Body : filter is_add_temp
                   (events_since (log s1 [CallWcaFetchRecord])
                      (snd (loop_body E r (log s1 [CallWcaFetchRecord]))))
                 = [add_call row]
                 /\ (FAILED (append_status E s1 row) = false ->
                     fst (loop_body E r (log s1 [CallWcaFetchRecord])) = Ret tt
                     /\ staged (snd (loop_body E r (log s1 [CallWcaFetchRecord])))
                        = staged s1 ++ [row])).
  { rewrite (loop_body_row E r x row _ L C O).
    destruct (after_append_summary E x row (log s1 [CallWcaFetchRecord]))
      as (Calls & Ok & _).
    split; [exact Calls | exact Ok]. }
  destruct Body as [Calls Ok].
  split; [exact Calls|]. split.
  - destruct (pass_trace_after_row E v pre post r s1 V Rows Pre) as [tail T].
    rewrite T. apply in_or_app. left.
    apply (In_events_since (log s1 [CallWcaFetchRecord])).
    apply (proj1 (filter_In is_add_temp _ _)).
    rewrite Calls. now left.
  - intros F. destruct (Ok F) as [R St].
    destruct (loop_body E r (log s1 [CallWcaFetchRecord])) as [res s2] eqn:B.
    cbn [fst snd] in R, St |- *. subst res.
    split; [now apply while_fetch_cons_Ret|]. split; [exact St|].
    destruct (pass_staged_after_row E v pre post r s1 s2 V Rows Pre B)
      as (k & Hk & Fin).
    exists k. split; [exact Hk|].
    rewrite Fin, St, <- app_assoc. reflexivity.
Qed.

(** C2. In a pass over the rule table, when the loop comes to a rule
    read in full whose mode is 1 (RemoveOnInstall) and whose condition is
    empty or evaluates to True, that iteration makes exactly one
    staging-table append call: 5 columns, to the [RemoveRegistry] table,
    with the values (id, root, key, "-", component), the four fields as
    read from the record; the call is in the trace of the action.  When
    the engine accepts the append, the loop goes on with the rows after
    it, and in the rows the action leaves staged that one row comes right
    after the rows staged before the rule and is followed only by rows of
    later records. *)
Theorem remove_on_install_appends_one_row (E : Engine) (v : MsiView)
    (pre post : list MsiRecord) (r : MsiRecord) (x : Rule) (s1 : State) :
  scanned_view E = Some v ->
  view_rows v = pre ++ r :: post ->
  reaches E pre s1 ->
  load r = Some x ->
  rule_mode x = 1 ->
  condition_applies E (rule_condition x) = true ->
  filter is_add_temp
    (events_since (log s1 [CallWcaFetchRecord])
       (snd (loop_body E r (log s1 [CallWcaFetchRecord]))))
  = [CallWcaAddTempRecord "RemoveRegistry" 0 5
       [AStr (rule_id x); AInt (rule_root x); AStr (rule_key x);
        AStr (Some "-"); AStr (rule_component x)]]
  /\ In (CallWcaAddTempRecord "RemoveRegistry" 0 5
           [AStr (rule_id x); AInt (rule_root x); AStr (rule_key x);
            AStr (Some "-"); AStr (rule_component x)])
        (trace (snd (WixRemoveRegistryKeyEx E)))
  /\ (FAILED (append_status E s1 (immediate_removal_row x)) = false ->
      while_fetch E (r :: post) s1
      = while_fetch E post (snd (loop_body E r (log s1 [CallWcaFetchRecord])))
      /\ staged (snd (loop_body E r (log s1 [CallWcaFetchRecord])))
         = staged s1 ++
           [("RemoveRegistry",
             [AStr (rule_id x); AInt (rule_root x); AStr (rule_key x);
              AStr (Some "-"); AStr (rule_component x)])]
      /\ exists k,
           (k <= List.length post)%nat
           /\ staged (snd (WixRemoveRegistryKeyEx E))
              = staged s1 ++
                ("RemoveRegistry",
                 [AStr (rule_id x); AInt (rule_root x); AStr (rule_key x);
                  AStr (Some "-"); AStr (rule_component x)])
                :: flat_map (expected_rows E) (firstn k post)).
Proof.
  intros V Rows Pre L Mode C.
  assert (O : output_row x = Some (immediate_removal_row x)).
  { unfold output_row. now rewrite Mode. }
  exact (row_appended_in_pass E v pre post r x (immediate_removal_row x) s1
           V Rows Pre L C O).
Qed.

(** C3. In a pass over the rule table, when the loop comes to a rule
    read in full whose mode is 2 (RemoveOnUninstall) and whose condition
    is empty or evaluates to True, that iteration makes exactly one
    staging-table append call: 6 columns, to the [Registry] table, with
    the values (id, root, key, "-", NULL, component); the call is in the
    trace of the action.  When the engine accepts the append, the loop
    goes on with the rows after it, and in the rows the action leaves
    staged that one row comes right after the rows staged before the rule
    and is followed only by rows of later records. *)
Theorem remove_on_uninstall_appends_one_row (E : Engine) (v : MsiView)
    (pre post : list MsiRecord) (r : MsiRecord) (x : Rule) (s1 : State) :
  scanned_view E = Some v ->
  view_rows v = pre ++ r :: post ->
  reaches E pre s1 ->
  load r = Some x ->
  rule_mode x = 2 ->
  condition_applies E (rule_condition x) = true ->
  filter is_add_temp
    (events_since (log s1 [CallWcaFetchRecord])
       (snd (loop_body E r (log s1 [CallWcaFetchRecord]))))
  = [CallWcaAddTempRecord "Registry" 0 6
       [AStr (rule_id x); AInt (rule_root x); AStr (rule_key x);
        AStr (Some "-"); AStr None; AStr (rule_component x)]]
  /\ In (CallWcaAddTempRecord "Registry" 0 6
           [AStr (rule_id x); AInt (rule_root x); AStr (rule_key x);
            AStr (Some "-"); AStr None; AStr (rule_component x)])
        (trace (snd (WixRemoveRegistryKeyEx E)))
  /\ (FAILED (append_status E s1 (scheduled_removal_row x)) = false ->
      while_fetch E (r :: post) s1
      = while_fetch E post (snd (loop_body E r (log s1 [CallWcaFetchRecord])))
      /\ staged (snd (loop_body E r (log s1 [CallWcaFetchRecord])))
         = staged s1 ++
           [("Registry",
             [AStr (rule_id x); AInt (rule_root x); AStr (rule_key x);
              AStr (Some "-"); AStr None; AStr (rule_component x)])]
      /\ exists k,
           (k <= List.length post)%nat
           /\ staged (snd (WixRemoveRegistryKeyEx E))
              = staged s1 ++
                ("Registry",
                 [AStr (rule_id x); AInt (rule_root x); AStr (rule_key x);
                  AStr (Some "-"); AStr None; AStr (rule_component x)])
                :: flat_map (expected_rows E) (firstn k post)).
Proof.
  intros V Rows Pre L Mode C.
  assert (O : output_row x = Some (scheduled_removal_row x)).
  { unfold output_row. rewrite Mode. reflexivity. }
  exact (row_appended_in_pass E v pre post r x (scheduled_removal_row x) s1
           V Rows Pre L C O).
Qed.

Lemma remove_on_install_appends_one_row_witness :
  In (CallWcaAddTempRecord "RemoveRegistry" 0 5
        [AStr (Some "R1"); AInt 2; AStr (Some "SOFTWARE\X"); AStr (Some "-");
         AStr (Some "C1")])
     (trace (snd (WixRemoveRegistryKeyEx
                    (Sample.engine [Sample.R2_false; Sample.R1; Sample.R2]))))
  /\ exists k,
       (k <= 1)%nat
       /\ staged (snd (WixRemoveRegistryKeyEx
                         (Sample.engine [Sample.R2_false; Sample.R1; Sample.R2])))
          = ("RemoveRegistry",
             [AStr (Some "R1"); AInt 2; AStr (Some "SOFTWARE\X"); AStr (Some "-");
              AStr (Some "C1")])
            :: flat_map
                 (expected_rows (Sample.engine [Sample.R2_false; Sample.R1; Sample.R2]))
                 (firstn k [Sample.R2]).
Proof.
  destruct (remove_on_install_appends_one_row
              (Sample.engine [Sample.R2_false; Sample.R1; Sample.R2])
              (Sample.view [Sample.R2_false; Sample.R1; Sample.R2])
              [Sample.R2_false] [Sample.R2] Sample.R1
              (mkRule (Some "R1") (Some "C1") 2 (Some "SOFTWARE\X") 1 (Some ""))
              (snd (while_fetch (Sample.engine []) [Sample.R2_false] scan_start))
              eq_refl eq_refl eq_refl eq_refl eq_refl eq_refl)
    as (_ & Called & Accepted).
  split; [exact Called | exact (proj2 (proj2 (Accepted eq_refl)))].
Defined.

Lemma remove_on_uninstall_appends_one_row_witness :
  In (CallWcaAddTempRecord "Registry" 0 6
        [AStr (Some "R2"); AInt 0; AStr (Some "SOFTWARE\Y"); AStr (Some "-");
         AStr None; AStr (Some "C2")])
     (trace (snd (WixRemoveRegistryKeyEx
                    (Sample.engine [Sample.R1; Sample.R2; Sample.R5_mode3]))))
  /\ exists k,
       (k <= 1)%nat
       /\ staged (snd (WixRemoveRegistryKeyEx
                         (Sample.engine [Sample.R1; Sample.R2; Sample.R5_mode3])))
          = ("RemoveRegistry",
             [AStr (Some "R1"); AInt 2; AStr (Some "SOFTWARE\X"); AStr (Some "-");
              AStr (Some "C1")])
            :: ("Registry",
                [AStr (Some "R2"); AInt 0; AStr (Some "SOFTWARE\Y"); AStr (Some "-");
                 AStr None; AStr (Some "C2")])
            :: flat_map
                 (expected_rows (Sample.engine [Sample.R1; Sample.R2; Sample.R5_mode3]))
                 (firstn k [Sample.R5_mode3]).
Proof.
  destruct (remove_on_uninstall_appends_one_row
              (Sample.engine [Sample.R1; Sample.R2; Sample.R5_mode3])
              (Sample.view [Sample.R1; Sample.R2; Sample.R5_mode3])
              [Sample.R1] [Sample.R5_mode3] Sample.R2
              (mkRule (Some "R2") (Some "C2") 0 (Some "SOFTWARE\Y") 2
                 (Some "VersionNT >= 600"))
              (snd (while_fetch (Sample.engine []) [Sample.R1] scan_start))
              eq_refl eq_refl eq_refl eq_refl eq_refl eq_refl)
    as (_ & Called & Accepted).
  split; [exact Called | exact (proj2 (proj2 (Accepted eq_refl)))].
Defined.

(** The two passes above, run in full. *)
Example remove_on_install_pass_run :
  staged (snd (WixRemoveRegistryKeyEx
                 (Sample.engine [Sample.R2_false; Sample.R1; Sample.R2])))
  = [("RemoveRegistry",
      [AStr (Some "R1"); AInt 2; AStr (Some "SOFTWARE\X"); AStr (Some "-");
       AStr (Some "C1")]);
     ("Registry",
      [AStr (Some "R2"); AInt 0; AStr (Some "SOFTWARE\Y"); AStr (Some "-");
       AStr None; AStr (Some "C2")])].
Proof. vm_compute. reflexivity. Qed.

Example remove_on_uninstall_pass_run :
  staged (snd (WixRemoveRegistryKeyEx
                 (Sample.engine [Sample.R1; Sample.R2; Sample.R5_mode3])))
  = [("RemoveRegistry",
      [AStr (Some "R1"); AInt 2; AStr (Some "SOFTWARE\X"); AStr (Some "-");
       AStr (Some "C1")]);
     ("Registry",
      [AStr (Some "R2"); AInt 0; AStr (Some "SOFTWARE\Y"); AStr (Some "-");
       AStr None; AStr (Some "C2")])].
Proof. vm_compute. reflexivity. Qed.
